(** * Practica1: ADC sampler, rolling average, formatter and RMS scheduler

    A shallow embedding of [Practica1/ADC.c], [ADC.h] and of the PIT-driven
    cooperative scheduler that accompanies them.  C integers are modelled
    as [Z] with the wrap-around of every unsigned operation written out,
    arrays as lists read and written by index, module-level variables as
    fields of a state record threaded through the functions. *)

From Stdlib Require Import ZArith List Lia Ascii Bool.
From stdpp Require Import base list.

Local Open Scope Z_scope.

(** ** Fixed-width unsigned integers *)

Module CInt.

(** Value of an integer once converted to an unsigned type of [w] bits. *)
Definition wrap (w : Z) (x : Z) : Z := x mod 2 ^ w.

Definition u8 (x : Z) : Z := wrap 8 x.
Definition u16 (x : Z) : Z := wrap 16 x.
Definition u32 (x : Z) : Z := wrap 32 x.

Definition is_u8 (x : Z) : Prop := 0 <= x < 2 ^ 8.
Definition is_u16 (x : Z) : Prop := 0 <= x < 2 ^ 16.
Definition is_u32 (x : Z) : Prop := 0 <= x < 2 ^ 32.

End CInt.

(** ** The ADC module (ADC.h, ADC.c) *)

Module ADC.
Import CInt.

(** Constants of ADC.h. *)
Definition ADC16_DEFAULT_CHANNEL : Z := 0.
Definition ADC_FULL_SCALE_COUNTS : Z := 4096.
Definition TEMP_MAX_C : Z := 40.
Definition ADC_SAMPLE_PERIOD_MS : Z := 20.
Definition ADC_AVG_WINDOW : Z := 5.
Definition ASCII_ZERO : Z := 48.
Definition ASCII_DOT_CHAR : Z := Z.of_nat (nat_of_ascii ".").

(** The module variables of ADC.c, together with the converter seen from
    the program: [hw_value k] is the code the result register holds when
    the [k]-th conversion completes, [hw_log] lists the channels on which
    a conversion was started, most recent first. *)
Record state : Type := mkState {
  s_activeChannel : Z;
  s_lastKickMs : Z;
  s_tempBuf : list Z;
  s_tempCount : Z;
  s_tempIndex : Z;
  s_lastTempC : Z;
  gAdcTempAscii : list Z;
  hw_value : nat -> Z;
  hw_log : list Z
}.

(** The variables as their initialisers leave them. *)
Definition initial (hw : nat -> Z) : state :=
  {| s_activeChannel := ADC16_DEFAULT_CHANNEL;
     s_lastKickMs := 0;
     s_tempBuf := [0; 0; 0; 0; 0];
     s_tempCount := 0;
     s_tempIndex := 0;
     s_lastTempC := 0;
     gAdcTempAscii := [ASCII_ZERO; ASCII_ZERO; ASCII_DOT_CHAR; ASCII_ZERO];
     hw_value := hw;
     hw_log := [] |}.

(** Number of conversions the hardware performed so far. *)
Definition conversions (s : state) : nat := length (hw_log s).

Definition cnt (s : state) : Z := Z.of_nat (conversions s).

(** [ADC_CountsToTempC]: the product and the quotient are computed on
    [uint32_t], the result is narrowed to [uint8_t]. *)
Definition ADC_CountsToTempC (counts : Z) : Z :=
  let t := u32 (u32 counts * u32 TEMP_MAX_C) / u32 ADC_FULL_SCALE_COUNTS in
  let t := if TEMP_MAX_C <? t then TEMP_MAX_C else t in
  u8 t.

(** [ADC_PushTemp]: store at the write index, advance it modulo the
    window, count up to the window.  A store outside the array (which the
    index never reaches) leaves the list as it is. *)
Definition ADC_PushTemp (temp_c : Z) (s : state) : state :=
  let buf := <[Z.to_nat (s_tempIndex s) := temp_c]> (s_tempBuf s) in
  let idx := u8 (u32 (s_tempIndex s + 1) mod ADC_AVG_WINDOW) in
  let cnt := if s_tempCount s <? ADC_AVG_WINDOW
             then u8 (s_tempCount s + 1) else s_tempCount s in
  {| s_activeChannel := s_activeChannel s;
     s_lastKickMs := s_lastKickMs s;
     s_tempBuf := buf;
     s_tempCount := cnt;
     s_tempIndex := idx;
     s_lastTempC := s_lastTempC s;
     gAdcTempAscii := gAdcTempAscii s;
     hw_value := hw_value s;
     hw_log := hw_log s |}.

(** [ADC_ConvertOnce_Polling]: start a conversion on the active channel,
    wait for the done flag, read the result register as [uint16_t].  The
    model covers the runs in which the converter raises the flag. *)
Definition ADC_ConvertOnce_Polling (s : state) : Z * state :=
  (u16 (hw_value s (conversions s)),
   {| s_activeChannel := s_activeChannel s;
      s_lastKickMs := s_lastKickMs s;
      s_tempBuf := s_tempBuf s;
      s_tempCount := s_tempCount s;
      s_tempIndex := s_tempIndex s;
      s_lastTempC := s_lastTempC s;
      gAdcTempAscii := gAdcTempAscii s;
      hw_value := hw_value s;
      hw_log := s_activeChannel s :: hw_log s |}).

(** [ADC_InitModule]: the buffer and the ASCII array are not touched. *)
Definition ADC_InitModule (s : state) : state :=
  {| s_activeChannel := ADC16_DEFAULT_CHANNEL;
     s_lastKickMs := 0;
     s_tempBuf := s_tempBuf s;
     s_tempCount := 0;
     s_tempIndex := 0;
     s_lastTempC := 0;
     gAdcTempAscii := gAdcTempAscii s;
     hw_value := hw_value s;
     hw_log := hw_log s |}.

Definition ADC_SetChannel (channel : Z) (s : state) : state :=
  {| s_activeChannel := channel;
     s_lastKickMs := s_lastKickMs s;
     s_tempBuf := s_tempBuf s;
     s_tempCount := s_tempCount s;
     s_tempIndex := s_tempIndex s;
     s_lastTempC := s_lastTempC s;
     gAdcTempAscii := gAdcTempAscii s;
     hw_value := hw_value s;
     hw_log := hw_log s |}.

Definition set_lastKickMs (t : Z) (s : state) : state :=
  {| s_activeChannel := s_activeChannel s;
     s_lastKickMs := t;
     s_tempBuf := s_tempBuf s;
     s_tempCount := s_tempCount s;
     s_tempIndex := s_tempIndex s;
     s_lastTempC := s_lastTempC s;
     gAdcTempAscii := gAdcTempAscii s;
     hw_value := hw_value s;
     hw_log := hw_log s |}.

Definition set_lastTempC (t : Z) (s : state) : state :=
  {| s_activeChannel := s_activeChannel s;
     s_lastKickMs := s_lastKickMs s;
     s_tempBuf := s_tempBuf s;
     s_tempCount := s_tempCount s;
     s_tempIndex := s_tempIndex s;
     s_lastTempC := t;
     gAdcTempAscii := gAdcTempAscii s;
     hw_value := hw_value s;
     hw_log := hw_log s |}.

Definition set_ascii (a : list Z) (s : state) : state :=
  {| s_activeChannel := s_activeChannel s;
     s_lastKickMs := s_lastKickMs s;
     s_tempBuf := s_tempBuf s;
     s_tempCount := s_tempCount s;
     s_tempIndex := s_tempIndex s;
     s_lastTempC := s_lastTempC s;
     gAdcTempAscii := a;
     hw_value := hw_value s;
     hw_log := hw_log s |}.

(** The test of [ADC_Service]: the difference is taken on [uint32_t]. *)
Definition elapsed (tick_ms : Z) (s : state) : Z :=
  u32 (tick_ms - s_lastKickMs s).

Definition due (tick_ms : Z) (s : state) : bool :=
  u32 ADC_SAMPLE_PERIOD_MS <=? elapsed tick_ms s.

(** [ADC_Service]. *)
Definition ADC_Service (tick_ms : Z) (s : state) : state :=
  if due tick_ms s then
    let s1 := set_lastKickMs tick_ms s in
    let '(counts, s2) := ADC_ConvertOnce_Polling s1 in
    let s3 := set_lastTempC (ADC_CountsToTempC counts) s2 in
    ADC_PushTemp (s_lastTempC s3) s3
  else s.

Definition ADC_GetLastTempC (s : state) : Z := s_lastTempC s.

(** Element [i] of the buffer; reading past the array, which the loop of
    [ADC_GetAvgTempC] never does while the count is at most the window,
    is given the value 0. *)
Definition buf_at (buf : list Z) (i : nat) : Z := default 0 (buf !! i).

(** [ADC_GetAvgTempC]: the accumulator is a [uint16_t], the quotient is
    taken on [int] and narrowed to [uint8_t].  The loop counter runs over
    [0 .. s_tempCount - 1]. *)
Definition ADC_GetAvgTempC (s : state) : Z :=
  if s_tempCount s =? 0 then 0
  else
    let acc := fold_left (fun acc i => u16 (acc + buf_at (s_tempBuf s) i))
                         (seq 0 (Z.to_nat (s_tempCount s))) 0 in
    u8 (Z.quot acc (u16 (s_tempCount s))).

(** [ADC_FormatTempToAscii]: the four stores into [gAdcTempAscii]. *)
Definition ADC_FormatTempToAscii (temp_c : Z) (s : state) : state :=
  let tens := u8 (temp_c / 10) in
  let units := u8 (temp_c mod 10) in
  let a := gAdcTempAscii s in
  let a := <[0%nat := u8 (ASCII_ZERO + tens)]> a in
  let a := <[1%nat := u8 (ASCII_ZERO + units)]> a in
  let a := <[2%nat := u8 ASCII_DOT_CHAR]> a in
  let a := <[3%nat := u8 (ASCII_ZERO + 0)]> a in
  set_ascii a s.

Definition ADC_FormatAvgTempToAscii (s : state) : state :=
  ADC_FormatTempToAscii (ADC_GetAvgTempC s) s.

(** *** Callers used to state the properties *)

(** A run of pushes, oldest first. *)
Definition push_all (l : list Z) (s : state) : state :=
  fold_left (fun s v => ADC_PushTemp v s) l s.

(** A run of calls of [ADC_Service], one per tick value. *)
Definition service_all (ticks : list Z) (s : state) : state :=
  fold_left (fun s t => ADC_Service t s) ticks s.

(** The values a [uint32_t] counter takes in [n] steps from [t0]. *)
Fixpoint consecutive_ticks (t0 : Z) (n : nat) : list Z :=
  match n with
  | O => []
  | S k => u32 t0 :: consecutive_ticks (t0 + 1) k
  end.

(** The mapping as the specification writes it. *)
Definition clamp (x lo hi : Z) : Z := Z.max lo (Z.min x hi).

Definition spec_counts_to_physical (rawCode : Z) : Z :=
  clamp (rawCode * 40 / 4096) 0 40.

Definition Zsum (l : list Z) : Z := fold_right Z.add 0 l.

(** The last [k] elements of a list. *)
Definition last_n {A} (k : nat) (l : list A) : list A :=
  drop (length l - k) l.

(** The invariant of the count and of the write index. *)
Definition rolling_inv (s : state) : Prop :=
  0 <= s_tempCount s <= ADC_AVG_WINDOW /\
  0 <= s_tempIndex s < ADC_AVG_WINDOW /\
  (s_tempCount s < ADC_AVG_WINDOW -> s_tempIndex s = s_tempCount s).

(** The buffer as a ring: with [b0] the array before the first push and
    [l] the values pushed since, the array is the last five values of
    [b0 ++ l] rotated so that the oldest one is at the write index. *)
Definition ring_inv (b0 l : list Z) (s : state) : Prop :=
  exists A B : list Z,
    last_n 5 (b0 ++ l) = A ++ B /\
    s_tempBuf s = B ++ A /\
    s_tempIndex s = Z.of_nat (length B) /\
    Z.of_nat (length B) = Z.of_nat (length l) mod 5 /\
    s_tempCount s = Z.min (Z.of_nat (length l)) 5.

Definition to_chars (a : list Z) : list ascii :=
  map (fun z => ascii_of_nat (Z.to_nat z)) a.

(** *** A client of the module *)

(** The calls a client can make, in the order of ADC.h. *)
Inductive api_op : Type :=
| OpInit
| OpSetChannel (channel : Z)
| OpService (tick_ms : Z)
| OpFormat (temp_c : Z)
| OpFormatAvg.

Definition exec_op (s : state) (op : api_op) : state :=
  match op with
  | OpInit => ADC_InitModule s
  | OpSetChannel channel => ADC_SetChannel channel s
  | OpService tick_ms => ADC_Service tick_ms s
  | OpFormat temp_c => ADC_FormatTempToAscii temp_c s
  | OpFormatAvg => ADC_FormatAvgTempToAscii s
  end.

Definition exec_all (ops : list api_op) (s : state) : state :=
  fold_left exec_op ops s.

Definition is_format (op : api_op) : bool :=
  match op with
  | OpFormat _ | OpFormatAvg => true
  | _ => false
  end.

(** The two arrays have the sizes of their declarations. *)
Definition arrays_sized (s : state) : Prop :=
  length (s_tempBuf s) = 5%nat /\ length (gAdcTempAscii s) = 4%nat.

(** The samples in use and the last value are temperatures of the scale. *)
Definition in_scale (x : Z) : Prop := 0 <= x <= TEMP_MAX_C.

Definition sampler_inv (s : state) : Prop :=
  arrays_sized s /\ rolling_inv s /\ in_scale (s_lastTempC s) /\
  Forall in_scale (take (Z.to_nat (s_tempCount s)) (s_tempBuf s)).

(** The mean the buffer stands for after the pushes [l]. *)
Definition rolling_mean (l : list Z) : Z :=
  match l with
  | [] => 0
  | _ => Zsum (last_n 5 l) / Z.of_nat (Nat.min (length l) 5)
  end.

End ADC.

(** ** The scheduler (PIT interrupt handler and main loop) *)

Module RMS.
Import CInt.

Inductive thread_state : Type := STANDBY | READY | EXECUTE.

(** The functions of the program that have the type of a thread handler. *)
Inductive thread_fn : Type := Thd_2ms | Thd_5ms | Thd_10ms | Thd_idle.

(** Modelled from the spec: the descriptor type [ThdObj] of RMS.h, which
    the program includes but which is not among the sources: a handler,
    a state among STANDBY, READY and EXECUTE, a period and an elapsed
    counter, in the order of the initialisers of [ThreadTable]. *)
Record ThdObj : Type := mkThd {
  ThreadHandler : thread_fn;
  ThreadState : thread_state;
  ThreadRate : Z;
  SystemTime : Z
}.

(** What the main loop does, in the order it does it: the stores into a
    descriptor's state and the calls. *)
Inductive event : Type :=
| EvState (i : nat) (st : thread_state)
| EvCall (f : thread_fn).

Record state : Type := mkRms {
  ThreadTable : list ThdObj;
  pitIsrFlag : bool;
  counter_2ms : Z;
  counter_5ms : Z;
  counter_10ms : Z;
  log : list event
}.

Definition ThreadTable_init : list ThdObj :=
  [ mkThd Thd_2ms STANDBY 2 0;
    mkThd Thd_5ms STANDBY 5 0;
    mkThd Thd_10ms STANDBY 10 0 ].

Definition initial : state :=
  mkRms ThreadTable_init false 0 0 0 [].

Definition thread_state_eqb (a b : thread_state) : bool :=
  match a, b with
  | STANDBY, STANDBY | READY, READY | EXECUTE, EXECUTE => true
  | _, _ => false
  end.

Definition set_state (st : thread_state) (d : ThdObj) : ThdObj :=
  mkThd (ThreadHandler d) st (ThreadRate d) (SystemTime d).

Definition set_time (t : Z) (d : ThdObj) : ThdObj :=
  mkThd (ThreadHandler d) (ThreadState d) (ThreadRate d) t.

Definition set_table (tbl : list ThdObj) (s : state) : state :=
  mkRms tbl (pitIsrFlag s) (counter_2ms s) (counter_5ms s)
        (counter_10ms s) (log s).

Definition record (e : event) (s : state) : state :=
  mkRms (ThreadTable s) (pitIsrFlag s) (counter_2ms s) (counter_5ms s)
        (counter_10ms s) (log s ++ [e]).

Section Width.
(** Number of bits of the unsigned field [SystemTime]. *)
Variable tick_bits : Z.

(** Body of the loop of the interrupt handler for entry [i]. *)
Definition isr_step (tbl : list ThdObj) (i : nat) : list ThdObj :=
  match tbl !! i with
  | None => tbl
  | Some d =>
      let d1 := set_time (wrap tick_bits (SystemTime d + 1)) d in
      if ThreadRate d1 <=? SystemTime d1
      then <[i := set_time 0 (set_state READY d1)]> tbl
      else <[i := d1]> tbl
  end.

(** [PIT0_IRQHandler]. *)
Definition PIT_LED_HANDLER (s : state) : state :=
  mkRms (fold_left isr_step (seq 0 3) (ThreadTable s)) true
        (counter_2ms s) (counter_5ms s) (counter_10ms s) (log s).
End Width.

(** The handlers: each increments its own [uint8_t] counter. *)
Definition call (f : thread_fn) (s : state) : state :=
  match f with
  | Thd_2ms =>
      mkRms (ThreadTable s) (pitIsrFlag s) (u8 (counter_2ms s + 1))
            (counter_5ms s) (counter_10ms s) (log s)
  | Thd_5ms =>
      mkRms (ThreadTable s) (pitIsrFlag s) (counter_2ms s)
            (u8 (counter_5ms s + 1)) (counter_10ms s) (log s)
  | Thd_10ms =>
      mkRms (ThreadTable s) (pitIsrFlag s) (counter_2ms s)
            (counter_5ms s) (u8 (counter_10ms s + 1)) (log s)
  | Thd_idle => s
  end.

Definition store_state (i : nat) (st : thread_state) (s : state) : state :=
  match ThreadTable s !! i with
  | None => s
  | Some d => record (EvState i st) (set_table (<[i := set_state st d]> (ThreadTable s)) s)
  end.

(** Body of the [for] loop of [main] for entry [i]. *)
Definition dispatch_step (s : state) (i : nat) : state :=
  match ThreadTable s !! i with
  | None => s
  | Some d =>
      if thread_state_eqb (ThreadState d) READY then
        let s1 := store_state i EXECUTE s in
        let s2 := call (ThreadHandler d) (record (EvCall (ThreadHandler d)) s1) in
        store_state i STANDBY s2
      else call Thd_idle (record (EvCall Thd_idle) s)
  end.

(** One pass of the [for] loop inside [while (true)]. *)
Definition main_round (s : state) : state :=
  fold_left dispatch_step (seq 0 3) s.

(** What a round does for one descriptor, as the specification words it. *)
Definition spec_visit (i : nat) (d : ThdObj) : list event :=
  match ThreadState d with
  | READY => [EvState i EXECUTE; EvCall (ThreadHandler d); EvState i STANDBY]
  | _ => [EvCall Thd_idle]
  end.

Definition spec_round (tbl : list ThdObj) : list event :=
  concat (imap spec_visit tbl).

Definition spec_after_visit (d : ThdObj) : ThdObj :=
  match ThreadState d with
  | READY => set_state STANDBY d
  | _ => d
  end.

(** The handlers called in a log, in order. *)
Definition handlers_run (l : list event) : list thread_fn :=
  flat_map (fun e => match e with
                     | EvCall Thd_idle => []
                     | EvCall f => [f]
                     | EvState _ _ => []
                     end) l.

(** What the interrupt handler does to one descriptor, as the
    specification words it. *)
Definition spec_tick (tick_bits : Z) (d : ThdObj) : ThdObj :=
  let t := wrap tick_bits (SystemTime d + 1) in
  if ThreadRate d <=? t
  then mkThd (ThreadHandler d) READY (ThreadRate d) 0
  else mkThd (ThreadHandler d) (ThreadState d) (ThreadRate d) t.

(** The two contexts that act on the table, and a run of them: a tick
    interrupt taken between two rounds of the main loop, or a round. *)
Inductive step : Type := Tick | Round.

Definition run (tick_bits : Z) (l : list step) (s : state) : state :=
  fold_left (fun s e => match e with
                        | Tick => PIT_LED_HANDLER tick_bits s
                        | Round => main_round s
                        end) l s.

(** What the next round adds to the log. *)
Definition round_events (s : state) : list event :=
  drop (length (log s)) (log (main_round s)).

(** Tables of three descriptors whose counters are below their periods. *)
Definition table_inv (tbl : list ThdObj) : Prop :=
  length tbl = 3%nat /\
  Forall (fun d => 0 <= SystemTime d < ThreadRate d) tbl.

Definition rate_le (r : Z) (tbl : list ThdObj) : Prop :=
  Forall (fun d => ThreadRate d <= r) tbl.

(** Number of tick interrupts in a run. *)
Fixpoint count_ticks (l : list step) : nat :=
  match l with
  | [] => O
  | Tick :: l' => S (count_ticks l')
  | Round :: l' => count_ticks l'
  end.

(** The main loop keeping up: a round after each tick, [k] times. *)
Definition tick_round (k : nat) : list step :=
  concat (replicate k [Tick; Round]).

Definition is_ready (st : thread_state) : bool := thread_state_eqb st READY.

(** The state a task of period [P] is in after [n] ticks without a round. *)
Definition flag_after (P n : Z) : thread_state :=
  if P <=? n then READY else STANDBY.

End RMS.

(** ** Conversion mapping *)

Section Mapping.
Import CInt ADC.

Lemma wrap_small w x : 0 <= x < 2 ^ w -> wrap w x = x.
Proof. intros H. unfold wrap. apply Z.mod_small. exact H. Qed.

Lemma counts_product_fits counts :
  is_u16 counts -> 0 <= counts * 40 < 2 ^ 32.
Proof. unfold is_u16. intros H. change (2 ^ 16) with 65536 in H.
  change (2 ^ 32) with 4294967296. lia. Qed.

Lemma ADC_CountsToTempC_unfold counts :
  is_u16 counts ->
  ADC_CountsToTempC counts = Z.min (counts * 40 / 4096) 40.
Proof.
  intros H. pose proof (counts_product_fits counts H) as Hp.
  unfold ADC_CountsToTempC, u32, u8, TEMP_MAX_C, ADC_FULL_SCALE_COUNTS.
  rewrite (wrap_small 32 counts).
  2:{ unfold is_u16 in H. change (2 ^ 16) with 65536 in H.
      change (2 ^ 32) with 4294967296. lia. }
  rewrite (wrap_small 32 40) by (change (2 ^ 32) with 4294967296; lia).
  rewrite (wrap_small 32 4096) by (change (2 ^ 32) with 4294967296; lia).
  rewrite (wrap_small 32 (counts * 40)) by exact Hp.
  assert (0 <= counts * 40 / 4096) by (apply Z.div_pos; lia).
  destruct (Z.ltb_spec 40 (counts * 40 / 4096)).
  - rewrite wrap_small by (change (2 ^ 8) with 256; lia). lia.
  - rewrite wrap_small by (change (2 ^ 8) with 256; lia). lia.
Qed.

End Mapping.

(** The code at the two ends of the range named in the comments of
    [ADC_CountsToTempC] and of [TEMP_MAX_C]. *)
Lemma ADC_CountsToTempC_zero : ADC.ADC_CountsToTempC 0 = 0.
Proof. reflexivity. Qed.

(** C1: the largest 12-bit code, 4095, is mapped to 39 and not to the
    maximum 40; half of full scale, 2048, is mapped to 20. *)
Theorem ADC_CountsToTempC_top_and_half :
  ADC.ADC_CountsToTempC 4095 = 39 /\ ADC.ADC_CountsToTempC 2048 = 20.
Proof. split; vm_compute; reflexivity. Qed.

(** No 12-bit code reaches the maximum: the saturation test of
    [ADC_CountsToTempC] is only taken from 4199 counts on. *)
Lemma ADC_CountsToTempC_12bit_below_max counts :
  0 <= counts < 4096 -> ADC.ADC_CountsToTempC counts <= 39.
Proof.
  intros H. rewrite ADC_CountsToTempC_unfold.
  2:{ unfold CInt.is_u16. change (2 ^ 16) with 65536. lia. }
  assert (counts * 40 / 4096 < 40) by (apply Z.div_lt_upper_bound; lia).
  lia.
Qed.

Section MappingSpec.
Import CInt ADC.

Lemma spec_counts_to_physical_unfold rawCode :
  0 <= rawCode ->
  spec_counts_to_physical rawCode = Z.min (rawCode * 40 / 4096) 40.
Proof.
  intros H. unfold spec_counts_to_physical, clamp.
  assert (0 <= rawCode * 40 / 4096) by (apply Z.div_pos; lia).
  lia.
Qed.

(** C6: on every 16-bit code the mapping is
    clamp(floor(rawCode * 40 / 4096), 0, 40), and it is monotonic
    non-decreasing. *)
Theorem ADC_CountsToTempC_clamp_monotone (c1 c2 : Z) :
  is_u16 c1 -> is_u16 c2 ->
  ADC_CountsToTempC c1 = spec_counts_to_physical c1 /\
  (c1 <= c2 -> ADC_CountsToTempC c1 <= ADC_CountsToTempC c2).
Proof.
  intros H1 H2. split.
  - rewrite ADC_CountsToTempC_unfold by exact H1.
    rewrite spec_counts_to_physical_unfold by (destruct H1; assumption).
    reflexivity.
  - intros Hle. rewrite !ADC_CountsToTempC_unfold by assumption.
    apply Z.min_le_compat_r. apply Z.div_le_mono; [lia|].
    destruct H1. lia.
Qed.

Lemma ADC_CountsToTempC_clamp_monotone_witness :
  ADC_CountsToTempC 4095 = spec_counts_to_physical 4095 /\
  (4095 <= 5000 -> ADC_CountsToTempC 4095 <= ADC_CountsToTempC 5000).
Proof.
  apply (ADC_CountsToTempC_clamp_monotone 4095 5000);
    unfold is_u16; change (2 ^ 16) with 65536; lia.
Defined.

End MappingSpec.

(** ** Formatter *)

Section Formatter.
Import CInt ADC.

Lemma format_ascii_unfold temp_c s a0 a1 a2 a3 :
  gAdcTempAscii s = [a0; a1; a2; a3] ->
  gAdcTempAscii (ADC_FormatTempToAscii temp_c s) =
    [u8 (ASCII_ZERO + u8 (temp_c / 10)); u8 (ASCII_ZERO + u8 (temp_c mod 10));
     u8 ASCII_DOT_CHAR; u8 (ASCII_ZERO + 0)].
Proof. intros H. unfold ADC_FormatTempToAscii. simpl. rewrite H. reflexivity. Qed.

Lemma length_four {A} (l : list A) :
  length l = 4%nat -> exists a0 a1 a2 a3, l = [a0; a1; a2; a3].
Proof.
  destruct l as [|a0 [|a1 [|a2 [|a3 [|a4 l]]]]]; simpl; try discriminate.
  intros _. exists a0, a1, a2, a3. reflexivity.
Qed.

(** C8: for a value in 0..99 the four characters written are the tens
    digit, the units digit, '.', and the constant '0'. *)
Theorem ADC_FormatTempToAscii_digits (temp_c : Z) (s : state) :
  0 <= temp_c <= 99 ->
  length (gAdcTempAscii s) = 4%nat ->
  gAdcTempAscii (ADC_FormatTempToAscii temp_c s) =
    [ASCII_ZERO + temp_c / 10; ASCII_ZERO + temp_c mod 10; ASCII_DOT_CHAR; ASCII_ZERO]
  /\ 0 <= temp_c / 10 <= 9 /\ 0 <= temp_c mod 10 <= 9
  /\ to_chars [ASCII_DOT_CHAR; ASCII_ZERO] = ["."; "0"]%char
  /\ to_chars (gAdcTempAscii (ADC_FormatTempToAscii 23 s)) = ["2"; "3"; "."; "0"]%char
  /\ to_chars (gAdcTempAscii (ADC_FormatTempToAscii 0 s)) = ["0"; "0"; "."; "0"]%char
  /\ to_chars (gAdcTempAscii (ADC_FormatTempToAscii 40 s)) = ["4"; "0"; "."; "0"]%char.
Proof.
  intros Hv Hlen.
  destruct (length_four _ Hlen) as (a0 & a1 & a2 & a3 & Ha).
  assert (Ht : 0 <= temp_c / 10 <= 9).
  { assert (temp_c / 10 < 10) by (apply Z.div_lt_upper_bound; lia).
    assert (0 <= temp_c / 10) by (apply Z.div_pos; lia). lia. }
  assert (Hu : 0 <= temp_c mod 10 <= 9).
  { pose proof (Z.mod_pos_bound temp_c 10). lia. }
  split; [| repeat split; try lia;
            try (rewrite (format_ascii_unfold _ _ _ _ _ _ Ha); vm_compute; reflexivity) ].
  rewrite (format_ascii_unfold _ _ _ _ _ _ Ha).
  unfold u8, ASCII_ZERO, ASCII_DOT_CHAR.
  change (Z.of_nat (nat_of_ascii ".")) with 46.
  rewrite (wrap_small 8 (temp_c / 10)) by (change (2 ^ 8) with 256; lia).
  rewrite (wrap_small 8 (temp_c mod 10)) by (change (2 ^ 8) with 256; lia).
  rewrite (wrap_small 8 (48 + temp_c / 10)) by (change (2 ^ 8) with 256; lia).
  rewrite (wrap_small 8 (48 + temp_c mod 10)) by (change (2 ^ 8) with 256; lia).
  reflexivity.
Qed.

Lemma ADC_FormatTempToAscii_digits_witness :
  gAdcTempAscii (ADC_FormatTempToAscii 37 (initial (fun _ => 0))) =
    [ASCII_ZERO + 37 / 10; ASCII_ZERO + 37 mod 10; ASCII_DOT_CHAR; ASCII_ZERO].
Proof.
  refine (proj1 (ADC_FormatTempToAscii_digits 37 (initial (fun _ => 0)) _ _));
    [lia | reflexivity].
Defined.

(** Outside 0..99 the first character is not a digit. *)
Lemma ADC_FormatTempToAscii_above_99 :
  to_chars (gAdcTempAscii (ADC_FormatTempToAscii 123 (initial (fun _ => 0))))
  = ["<"; "3"; "."; "0"]%char.
Proof. vm_compute. reflexivity. Qed.

(** The formatter writes nothing but the ASCII array. *)
Lemma ADC_FormatTempToAscii_frame temp_c s :
  set_ascii (gAdcTempAscii s) (ADC_FormatTempToAscii temp_c s) = s.
Proof. destruct s. reflexivity. Qed.

End Formatter.

(** ** The periodic service *)

Section Service.
Import CInt ADC.

Lemma due_true_iff tick s :
  due tick s = true <-> ADC_SAMPLE_PERIOD_MS <= elapsed tick s.
Proof.
  unfold due. change (u32 ADC_SAMPLE_PERIOD_MS) with ADC_SAMPLE_PERIOD_MS.
  apply Z.leb_le.
Qed.

Lemma due_false_iff tick s :
  due tick s = false <-> elapsed tick s < ADC_SAMPLE_PERIOD_MS.
Proof.
  unfold due. change (u32 ADC_SAMPLE_PERIOD_MS) with ADC_SAMPLE_PERIOD_MS.
  apply Z.leb_gt.
Qed.

Lemma ADC_Service_due tick s :
  due tick s = true ->
  conversions (ADC_Service tick s) = S (conversions s) /\
  s_lastKickMs (ADC_Service tick s) = tick /\
  hw_log (ADC_Service tick s) = s_activeChannel s :: hw_log s.
Proof. intros H. unfold ADC_Service. rewrite H. repeat split. Qed.

Lemma ADC_Service_not_due tick s :
  due tick s = false -> ADC_Service tick s = s.
Proof. intros H. unfold ADC_Service. rewrite H. reflexivity. Qed.

Lemma ADC_Service_conversions tick s :
  conversions (ADC_Service tick s) =
  (conversions s + (if due tick s then 1 else 0))%nat.
Proof.
  destruct (due tick s) eqn:H.
  - rewrite (proj1 (ADC_Service_due _ _ H)). lia.
  - rewrite (ADC_Service_not_due _ _ H). lia.
Qed.

(** The difference of two counters that both wrapped is the difference
    of the times they stand for, as long as less than 2^32 ticks lie
    between them. *)
Lemma u32_sub_rollover (T L : Z) :
  L <= T < L + 2 ^ 32 ->
  u32 (u32 T - u32 L) = T - L.
Proof.
  intros H. unfold u32, wrap.
  rewrite <- Zminus_mod. apply Z.mod_small. lia.
Qed.

(** C7: a conversion is triggered exactly when the difference
    tick - lastKick, taken modulo 2^32, is at least the sampling period;
    across a rollover of the counter this is the number of ticks that
    really went by. *)
Theorem ADC_Service_trigger_wraparound (tick : Z) (s : state) :
  (conversions (ADC_Service tick s) = S (conversions s) <->
     20 <= (tick - s_lastKickMs s) mod 2 ^ 32) /\
  (conversions (ADC_Service tick s) = conversions s <->
     (tick - s_lastKickMs s) mod 2 ^ 32 < 20) /\
  (forall T L : Z,
      L <= T < L + 2 ^ 32 ->
      tick = T mod 2 ^ 32 -> s_lastKickMs s = L mod 2 ^ 32 ->
      (conversions (ADC_Service tick s) = S (conversions s) <-> 20 <= T - L)).
Proof.
  assert (E : forall b : bool,
             conversions (ADC_Service tick s) =
               (conversions s + (if b then 1 else 0))%nat ->
             (conversions (ADC_Service tick s) = S (conversions s) <-> b = true) /\
             (conversions (ADC_Service tick s) = conversions s <-> b = false)).
  { intros [] ->; split; split; intros; try reflexivity; try lia; discriminate. }
  destruct (E _ (ADC_Service_conversions tick s)) as [E1 E2].
  split; [|split].
  - rewrite E1. apply due_true_iff.
  - rewrite E2. apply due_false_iff.
  - intros T L HTL Ht HL. rewrite E1, due_true_iff.
    unfold elapsed. rewrite Ht, HL.
    change (T mod 2 ^ 32) with (u32 T). change (L mod 2 ^ 32) with (u32 L).
    rewrite u32_sub_rollover by exact HTL. reflexivity.
Qed.

(** A counter that rolled over: last conversion 6 ticks before the
    wrap, service called 14 ticks after it. *)
Lemma ADC_Service_trigger_wraparound_witness :
  conversions (ADC_Service 14 (set_lastKickMs 4294967290 (initial (fun _ => 0)))) =
    S (conversions (set_lastKickMs 4294967290 (initial (fun _ => 0))))
  <-> 20 <= 4294967310 - 4294967290.
Proof.
  refine (proj2 (proj2 (ADC_Service_trigger_wraparound 14
            (set_lastKickMs 4294967290 (initial (fun _ => 0)))))
            4294967310 4294967290 _ _ _).
  - change (2 ^ 32) with 4294967296. lia.
  - reflexivity.
  - reflexivity.
Defined.

(** C9: called before a sampling period has elapsed, the service
    changes nothing: neither the module variables, nor the ASCII array,
    nor the converter. *)
Theorem ADC_Service_noop_before_period (tick : Z) (s : state) :
  elapsed tick s < ADC_SAMPLE_PERIOD_MS ->
  ADC_Service tick s = s.
Proof. intros H. apply ADC_Service_not_due. apply due_false_iff. exact H. Qed.

Lemma ADC_Service_noop_before_period_witness :
  ADC_Service 19 (initial (fun _ => 0)) = initial (fun _ => 0).
Proof.
  apply (ADC_Service_noop_before_period 19 (initial (fun _ => 0))).
  vm_compute. reflexivity.
Defined.

End Service.

(** ** Conversions over a run of service calls *)

Section ServiceRuns.
Import CInt ADC.

Lemma elapsed_u32 t s : elapsed (u32 t) s = elapsed t s.
Proof. unfold elapsed, u32, wrap. apply Zminus_mod_idemp_l. Qed.

Lemma elapsed_range t s : 0 <= elapsed t s < 2 ^ 32.
Proof. unfold elapsed, u32, wrap. apply Z.mod_pos_bound. reflexivity. Qed.

(** One tick after a conversion the elapsed time is 1. *)
Lemma elapsed_after_kick t s :
  s_lastKickMs s = u32 t -> elapsed (t + 1) s = 1.
Proof.
  intros H. unfold elapsed. rewrite H. unfold u32, wrap.
  rewrite Zminus_mod_idemp_r. replace (t + 1 - t) with 1 by lia. reflexivity.
Qed.

(** While no conversion happens the elapsed time grows by one per tick. *)
Lemma elapsed_succ t s :
  elapsed t s < 20 -> elapsed (t + 1) s = elapsed t s + 1.
Proof.
  intros H. pose proof (elapsed_range t s) as R. revert H R. unfold elapsed, u32, wrap.
  intros H R.
  replace (t + 1 - s_lastKickMs s) with ((t - s_lastKickMs s) + 1) by lia.
  rewrite <- Zplus_mod_idemp_l. apply Z.mod_small.
  change (2 ^ 32) with 4294967296 in *. lia.
Qed.

Lemma service_all_cons t ticks s :
  service_all (t :: ticks) s = service_all ticks (ADC_Service t s).
Proof. reflexivity. Qed.

(** Starting at most one period after the last conversion, [n] calls on
    consecutive ticks convert once each time the elapsed time reaches
    the period. *)
Lemma window_count (n : nat) : forall (s : state) (t0 : Z),
  elapsed t0 s <= 20 ->
  let s' := service_all (consecutive_ticks t0 (S n)) s in
  20 * (cnt s' - cnt s) <= Z.of_nat (S n) + elapsed t0 s - 1
    < 20 * (cnt s' - cnt s) + 20.
Proof.
  induction n as [|n IH]; intros s t0 He; cbv zeta.
  - cbn [consecutive_ticks]. rewrite service_all_cons. cbn [service_all fold_left].
    unfold cnt. rewrite ADC_Service_conversions.
    pose proof (elapsed_range t0 s) as R.
    destruct (due (u32 t0) s) eqn:D.
    + apply due_true_iff in D. rewrite elapsed_u32 in D.
      unfold ADC_SAMPLE_PERIOD_MS in D. lia.
    + apply due_false_iff in D. rewrite elapsed_u32 in D.
      unfold ADC_SAMPLE_PERIOD_MS in D. lia.
  - change (consecutive_ticks t0 (S (S n)))
      with (u32 t0 :: consecutive_ticks (t0 + 1) (S n)).
    rewrite service_all_cons.
    pose proof (elapsed_range t0 s) as R.
    destruct (due (u32 t0) s) eqn:D.
    + pose proof (ADC_Service_due _ _ D) as (Hc & Hk & _).
      apply due_true_iff in D. rewrite elapsed_u32 in D.
      unfold ADC_SAMPLE_PERIOD_MS in D.
      pose proof (elapsed_after_kick t0 _ Hk) as E1.
      specialize (IH (ADC_Service (u32 t0) s) (t0 + 1)). cbv zeta in IH.
      rewrite E1 in IH. specialize (IH ltac:(lia)).
      unfold cnt in *. rewrite Hc in IH. lia.
    + rewrite (ADC_Service_not_due _ _ D).
      apply due_false_iff in D. rewrite elapsed_u32 in D.
      unfold ADC_SAMPLE_PERIOD_MS in D.
      specialize (IH s (t0 + 1)). cbv zeta in IH.
      rewrite (elapsed_succ _ _ D) in IH. specialize (IH ltac:(lia)).
      lia.
Qed.

(** From any state, [n] calls on consecutive ticks. *)
Lemma window_count_any (n : nat) (s : state) (t0 : Z) :
  let s' := service_all (consecutive_ticks t0 (S n)) s in
  (elapsed t0 s <= 20 ->
     20 * (cnt s' - cnt s) <= Z.of_nat (S n) + elapsed t0 s - 1
       < 20 * (cnt s' - cnt s) + 20) /\
  (20 < elapsed t0 s ->
     20 * (cnt s' - cnt s - 1) <= Z.of_nat n < 20 * (cnt s' - cnt s - 1) + 20).
Proof.
  cbv zeta. split; [apply window_count|]. intros He.
  change (consecutive_ticks t0 (S n)) with (u32 t0 :: consecutive_ticks (t0 + 1) n).
  rewrite service_all_cons.
  assert (D : due (u32 t0) s = true).
  { apply due_true_iff. rewrite elapsed_u32. unfold ADC_SAMPLE_PERIOD_MS. lia. }
  pose proof (ADC_Service_due _ _ D) as (Hc & Hk & _).
  destruct n as [|n].
  - cbn [consecutive_ticks service_all fold_left]. unfold cnt. rewrite Hc. lia.
  - pose proof (window_count n (ADC_Service (u32 t0) s) (t0 + 1)) as W.
    cbv zeta in W. rewrite (elapsed_after_kick t0 _ Hk) in W.
    specialize (W ltac:(lia)). unfold cnt in *. rewrite Hc in W. lia.
Qed.

Lemma conversions_window_bound (s : state) (t0 : Z) (n : nat) :
  (conversions (service_all (consecutive_ticks t0 n) s)
     <= conversions s + (n + 19) / 20)%nat.
Proof.
  destruct n as [|n]; [cbn; lia|].
  pose proof (window_count_any n s t0) as [W1 W2]. cbv zeta in W1, W2.
  pose proof (elapsed_range t0 s) as R.
  set (s' := service_all (consecutive_ticks t0 (S n)) s) in *.
  assert (H : 20 * (cnt s' - cnt s) <= Z.of_nat (S n) + 19).
  { destruct (Z_le_gt_dec (elapsed t0 s) 20) as [L|G].
    - specialize (W1 L). lia.
    - specialize (W2 ltac:(lia)). lia. }
  unfold cnt in H.
  assert (Z.of_nat (conversions s') - Z.of_nat (conversions s)
            <= (Z.of_nat (S n) + 19) / 20).
  { apply Z.div_le_lower_bound; lia. }
  assert (Z.of_nat ((S n + 19) / 20) = (Z.of_nat (S n) + 19) / 20).
  { rewrite Nat2Z.inj_div. f_equal. lia. }
  lia.
Qed.

Lemma conversions_from_init (s : state) (t0 : Z) :
  conversions (service_all (consecutive_ticks t0 20) (ADC_InitModule s)) =
  (conversions s + (if (u32 t0 =? 0)%Z then 0 else 1))%nat.
Proof.
  pose proof (window_count_any 19 (ADC_InitModule s) t0) as [W1 W2].
  cbv zeta in W1, W2.
  pose proof (elapsed_range t0 (ADC_InitModule s)) as R.
  assert (E : elapsed t0 (ADC_InitModule s) = u32 t0).
  { unfold elapsed. simpl. f_equal. lia. }
  assert (C : cnt (ADC_InitModule s) = cnt s) by reflexivity.
  set (s' := service_all (consecutive_ticks t0 20) (ADC_InitModule s)) in *.
  rewrite E, C in *. unfold cnt in *.
  destruct (Z.eqb_spec (u32 t0) 0) as [Z0|NZ].
  - rewrite Z0 in *. specialize (W1 ltac:(lia)). lia.
  - destruct (Z_le_gt_dec (u32 t0) 20) as [L|G].
    + specialize (W1 L). lia.
    + specialize (W2 ltac:(lia)). lia.
Qed.

(** C2: the service never converts more than once per sampling period.
    A call converts only when a full period has elapsed since the tick
    of the previous conversion, which it then records; [n] calls on
    consecutive ticks convert at most ceil(n/20) times from any state;
    and 20 calls on the ticks 1..20 after initialisation convert exactly
    once (as do 20 calls on consecutive ticks from any first tick other
    than 0). *)
Theorem ADC_Service_one_conversion_per_period :
  (forall (s : state) (tick : Z),
      conversions (ADC_Service tick s) =
        (conversions s + (if due tick s then 1 else 0))%nat /\
      (due tick s = true ->
         ADC_SAMPLE_PERIOD_MS <= elapsed tick s /\
         s_lastKickMs (ADC_Service tick s) = tick)) /\
  (forall (s : state) (t0 : Z) (n : nat),
      (conversions (service_all (consecutive_ticks t0 n) s)
         <= conversions s + (n + 19) / 20)%nat) /\
  (forall (s : state) (t0 : Z),
      conversions (service_all (consecutive_ticks t0 20) (ADC_InitModule s)) =
        (conversions s + (if (u32 t0 =? 0)%Z then 0 else 1))%nat) /\
  (forall s : state,
      conversions (service_all (consecutive_ticks 1 20) (ADC_InitModule s)) =
        S (conversions s)).
Proof.
  split; [|split; [|split]].
  - intros s tick. split; [apply ADC_Service_conversions|].
    intros D. split; [apply due_true_iff; exact D|].
    apply (ADC_Service_due _ _ D).
  - apply conversions_window_bound.
  - apply conversions_from_init.
  - intros s. rewrite conversions_from_init. change (u32 1 =? 0) with false. cbv iota. lia.
Qed.

Lemma ADC_Service_one_conversion_per_period_witness :
  ADC_SAMPLE_PERIOD_MS <= elapsed 20 (initial (fun _ => 0)) /\
  s_lastKickMs (ADC_Service 20 (initial (fun _ => 0))) = 20.
Proof.
  exact (proj2 (proj1 ADC_Service_one_conversion_per_period
                  (initial (fun _ => 0)) 20) eq_refl).
Defined.

(** After initialisation, 20 calls on the ticks 0..19 perform no
    conversion at all, not one: the first one is due at tick 20. *)
Lemma ADC_Service_ticks_0_to_19_no_conversion :
  conversions (service_all (consecutive_ticks 0 20)
                 (ADC_InitModule (initial (fun _ => 0)))) = 0%nat /\
  conversions (service_all (consecutive_ticks 0 20)
                 (ADC_InitModule (initial (fun _ => 0)))) <> 1%nat.
Proof. split; vm_compute; [reflexivity | discriminate]. Qed.

(** The same 20 calls on the ticks 0..19 convert nothing: the twentieth
    tick after initialisation is tick 20. *)
Lemma conversions_ticks_0_to_19 (s : state) :
  conversions (service_all (consecutive_ticks 0 20) (ADC_InitModule s)) =
  conversions s.
Proof. rewrite conversions_from_init. change (u32 0 =? 0) with true. cbv iota. lia. Qed.

End ServiceRuns.

(** ** The rolling buffer *)

Section RollingBuffer.
Import CInt ADC.

Lemma push_all_snoc l v s :
  push_all (l ++ [v]) s = ADC_PushTemp v (push_all l s).
Proof. unfold push_all. rewrite fold_left_app. reflexivity. Qed.

Lemma last_n_length {A} (k : nat) (x : list A) :
  (k <= length x)%nat -> length (last_n k x) = k.
Proof. intros H. unfold last_n. rewrite length_drop. lia. Qed.

Lemma last_n_snoc {A} (k : nat) (x : list A) (v : A) :
  (0 < k <= length x)%nat ->
  last_n k (x ++ [v]) = drop 1 (last_n k x) ++ [v].
Proof.
  intros H. unfold last_n. rewrite length_app. cbn [length].
  replace (length x + 1 - k)%nat with (S (length x - k)) by lia.
  rewrite drop_app_le by lia. rewrite drop_drop.
  replace (length x - k + 1)%nat with (S (length x - k)) by lia.
  reflexivity.
Qed.

Lemma last_n_app_long {A} (k : nat) (b0 l : list A) :
  (k <= length l)%nat -> last_n k (b0 ++ l) = last_n k l.
Proof.
  intros H. unfold last_n. rewrite length_app.
  replace (length b0 + length l - k)%nat with (length b0 + (length l - k))%nat by lia.
  apply drop_app_add.
Qed.

Lemma last_n_app_short {A} (b0 l : list A) :
  (length l <= length b0)%nat ->
  last_n (length b0) (b0 ++ l) = drop (length l) b0 ++ l.
Proof.
  intros H. unfold last_n. rewrite length_app.
  replace (length b0 + length l - length b0)%nat with (length l) by lia.
  apply drop_app_le. exact H.
Qed.

Lemma ring_inv_init (s : state) :
  length (s_tempBuf s) = 5%nat ->
  ring_inv (s_tempBuf s) [] (ADC_InitModule s).
Proof.
  intros H. exists (s_tempBuf s), []. cbn [ADC_InitModule s_tempBuf s_tempIndex
    s_tempCount length]. rewrite !app_nil_r. unfold last_n. rewrite H.
  repeat split; reflexivity.
Qed.

Lemma ring_inv_push (b0 l : list Z) (v : Z) (s : state) :
  length b0 = 5%nat ->
  ring_inv b0 l s -> ring_inv b0 (l ++ [v]) (ADC_PushTemp v s).
Proof.
  intros Hb (A & B & Hlast & Hbuf & Hidx & Hmod & Hcnt).
  assert (HAB : length (A ++ B) = 5%nat).
  { rewrite <- Hlast. apply last_n_length. rewrite length_app. lia. }
  rewrite length_app in HAB.
  assert (HB5 : (length B < 5)%nat).
  { pose proof (Z.mod_pos_bound (Z.of_nat (length l)) 5). lia. }
  destruct A as [|a A']; [cbn in HAB; lia|]. cbn [length] in HAB.
  assert (Hlast' : last_n 5 (b0 ++ l ++ [v]) = A' ++ B ++ [v]).
  { rewrite app_assoc, last_n_snoc by (rewrite length_app; lia).
    rewrite Hlast. cbn. rewrite (assoc_L (++)). reflexivity. }
  assert (Hbuf' : s_tempBuf (ADC_PushTemp v s) = B ++ v :: A').
  { cbn [ADC_PushTemp s_tempBuf]. rewrite Hbuf, Hidx, Nat2Z.id.
    rewrite insert_app_r_alt by lia. rewrite Nat.sub_diag. reflexivity. }
  assert (Hidx' : s_tempIndex (ADC_PushTemp v s) = (Z.of_nat (length B) + 1) mod 5).
  { cbn [ADC_PushTemp s_tempIndex]. rewrite Hidx. unfold u8, u32, ADC_AVG_WINDOW.
    rewrite (wrap_small 32) by (change (2 ^ 32) with 4294967296; lia).
    apply wrap_small. pose proof (Z.mod_pos_bound (Z.of_nat (length B) + 1) 5).
    change (2 ^ 8) with 256. lia. }
  assert (Hcnt' : s_tempCount (ADC_PushTemp v s) = Z.min (Z.of_nat (length (l ++ [v]))) 5).
  { cbn [ADC_PushTemp s_tempCount]. rewrite Hcnt, length_app. cbn [length].
    unfold ADC_AVG_WINDOW, u8.
    destruct (Z.ltb_spec (Z.min (Z.of_nat (length l)) 5) 5).
    - rewrite wrap_small by (change (2 ^ 8) with 256; lia). lia.
    - lia. }
  assert (Hmod' : (Z.of_nat (length B) + 1) mod 5 = Z.of_nat (length (l ++ [v])) mod 5).
  { rewrite length_app. cbn [length]. rewrite Nat2Z.inj_add. cbn.
    rewrite <- (Zplus_mod_idemp_l (Z.of_nat (length l))), <- Hmod. reflexivity. }
  destruct (Nat.eq_dec (length B) 4%nat) as [E4|N4].
  - (* the write index wraps to 0 *)
    assert (A' = []) by (destruct A'; [reflexivity | cbn in HAB; lia]). subst A'.
    exists (B ++ [v]), []. rewrite app_nil_r. cbn [app] in *.
    repeat split; try assumption.
    + rewrite Hidx', E4. reflexivity.
    + rewrite <- Hmod', E4. reflexivity.
  - exists A', (B ++ [v]).
    assert (Hsmall : (Z.of_nat (length B) + 1) mod 5 = Z.of_nat (length (B ++ [v]))).
    { rewrite length_app. cbn [length]. rewrite Z.mod_small by lia. lia. }
    repeat split; try assumption.
    + rewrite Hbuf', <- (assoc_L (++)). reflexivity.
    + rewrite Hidx'. exact Hsmall.
    + rewrite <- Hsmall. exact Hmod'.
Qed.

Lemma ring_inv_push_all (s : state) (l : list Z) :
  length (s_tempBuf s) = 5%nat ->
  ring_inv (s_tempBuf s) l (push_all l (ADC_InitModule s)).
Proof.
  intros H. induction l as [|v l IH] using rev_ind.
  - apply ring_inv_init. exact H.
  - rewrite push_all_snoc. apply ring_inv_push; assumption.
Qed.

End RollingBuffer.

(** ** The average *)

Section Average.
Import CInt ADC.

Lemma Zsum_app l k : Zsum (l ++ k) = Zsum l + Zsum k.
Proof. unfold Zsum. induction l as [|x l IH]; cbn; [reflexivity | rewrite IH; lia]. Qed.

Lemma Zsum_bytes l :
  Forall is_u8 l -> 0 <= Zsum l <= 255 * Z.of_nat (length l).
Proof.
  unfold Zsum. induction 1 as [|x l Hx _ IH]; cbn [fold_right length]; [lia|].
  unfold is_u8 in Hx. change (2 ^ 8) with 256 in Hx. lia.
Qed.

(** The accumulator of the loop after [c] iterations: no addition
    overflows the 16 bits while at most 257 bytes are added. *)
Lemma avg_loop_sum (buf : list Z) (c : nat) :
  (c <= length buf)%nat -> (c <= 257)%nat ->
  Forall is_u8 (take c buf) ->
  fold_left (fun acc i => u16 (acc + buf_at buf i)) (seq 0 c) 0 = Zsum (take c buf).
Proof.
  induction c as [|c IH]; intros Hlen Hc Hb; [reflexivity|].
  destruct (lookup_lt_is_Some_2 buf c ltac:(lia)) as [x Hx].
  rewrite (take_S_r _ _ _ Hx) in *. apply Forall_app in Hb as [Hb1 Hb2].
  rewrite seq_S, fold_left_app. cbn [fold_left Nat.add].
  rewrite IH by (assumption || lia).
  unfold buf_at. rewrite Hx. cbn [default from_option]. unfold id.
  rewrite Zsum_app. cbn [Zsum fold_right].
  pose proof (Zsum_bytes _ Hb1) as S1. rewrite length_take in S1.
  apply Forall_inv in Hb2. unfold is_u8 in Hb2. change (2 ^ 8) with 256 in Hb2.
  unfold u16. rewrite wrap_small by (change (2 ^ 16) with 65536; lia). lia.
Qed.

(** The average of a state whose count is [c], at most the window. *)
Lemma ADC_GetAvgTempC_sum (s : state) (c : nat) :
  s_tempCount s = Z.of_nat c -> (0 < c <= 5)%nat ->
  (c <= length (s_tempBuf s))%nat ->
  Forall is_u8 (take c (s_tempBuf s)) ->
  ADC_GetAvgTempC s = Zsum (take c (s_tempBuf s)) / Z.of_nat c.
Proof.
  intros Hc Hr Hlen Hb. unfold ADC_GetAvgTempC. rewrite Hc.
  destruct (Z.eqb_spec (Z.of_nat c) 0) as [E|_]; [lia|].
  rewrite Nat2Z.id, avg_loop_sum by (assumption || lia).
  pose proof (Zsum_bytes _ Hb) as S1. rewrite length_take in S1.
  unfold u16, u8. rewrite (wrap_small 16 (Z.of_nat c))
    by (change (2 ^ 16) with 65536; lia).
  rewrite Z.quot_div_nonneg by lia.
  apply wrap_small. split; [apply Z.div_pos; lia|].
  apply Z.div_lt_upper_bound; [lia|]. change (2 ^ 8) with 256. nia.
Qed.

Lemma push_all_count_zero (s : state) :
  ADC_GetAvgTempC (push_all [] (ADC_InitModule s)) = 0.
Proof. reflexivity. Qed.

(** Fewer pushes than the window: the first slots hold the pushes. *)
Lemma ring_inv_partial (b0 l : list Z) (s : state) :
  length b0 = 5%nat -> (length l < 5)%nat ->
  ring_inv b0 l s ->
  s_tempCount s = Z.of_nat (length l) /\
  s_tempIndex s = Z.of_nat (length l) /\
  length (s_tempBuf s) = 5%nat /\
  take (length l) (s_tempBuf s) = l.
Proof.
  intros Hb Hl (A & B & Hlast & Hbuf & Hidx & Hmod & Hcnt).
  rewrite Z.mod_small in Hmod by lia. apply Nat2Z.inj in Hmod.
  assert (HAB : length (A ++ B) = 5%nat).
  { rewrite <- Hlast. apply last_n_length. rewrite length_app. lia. }
  rewrite <- Hb, last_n_app_short in Hlast by lia.
  apply app_inj_2 in Hlast as [_ HB]; [|lia]. subst B.
  repeat split.
  - lia.
  - lia.
  - rewrite Hbuf, length_app. rewrite length_app in HAB. lia.
  - rewrite Hbuf. apply take_app_length.
Qed.

(** At least as many pushes as the window: the array is a rotation of
    the last five pushes. *)
Lemma ring_inv_full (b0 l : list Z) (s : state) :
  length b0 = 5%nat -> (5 <= length l)%nat ->
  ring_inv b0 l s ->
  s_tempCount s = 5 /\
  exists A B, last_n 5 l = A ++ B /\ s_tempBuf s = B ++ A.
Proof.
  intros Hb Hl (A & B & Hlast & Hbuf & Hidx & Hmod & Hcnt).
  split; [lia|]. exists A, B. rewrite last_n_app_long in Hlast by lia.
  split; assumption.
Qed.

(** C3: the average is 0 before the first push, the truncated mean of
    the values pushed while fewer than five were pushed, and the floor
    of the mean of the last five from the fifth push on. *)
Theorem ADC_GetAvgTempC_rolling_mean (s : state) (l : list Z) :
  length (s_tempBuf s) = 5%nat ->
  Forall is_u8 l ->
  (l = [] -> ADC_GetAvgTempC (push_all l (ADC_InitModule s)) = 0) /\
  ((0 < length l < 5)%nat ->
     ADC_GetAvgTempC (push_all l (ADC_InitModule s)) =
       Zsum l / Z.of_nat (length l)) /\
  ((5 <= length l)%nat ->
     ADC_GetAvgTempC (push_all l (ADC_InitModule s)) = Zsum (last_n 5 l) / 5).
Proof.
  intros Hbuf Hl.
  pose proof (ring_inv_push_all s l Hbuf) as R.
  split; [|split].
  - intros ->. reflexivity.
  - intros Hn.
    destruct (ring_inv_partial _ _ _ Hbuf (proj2 Hn) R) as (Hc & _ & Hlen & Ht).
    rewrite (ADC_GetAvgTempC_sum _ (length l) Hc); [| lia | lia |].
    + rewrite Ht. reflexivity.
    + rewrite Ht. exact Hl.
  - intros Hn.
    destruct (ring_inv_full _ _ _ Hbuf Hn R) as (Hc & A & B & Hlast & Hb).
    assert (H5 : length (B ++ A) = 5%nat).
    { rewrite length_app, Nat.add_comm, <- length_app, <- Hlast.
      apply last_n_length. exact Hn. }
    assert (Hbytes : Forall is_u8 (B ++ A)).
    { assert (F : Forall is_u8 (A ++ B)).
      { rewrite <- Hlast. unfold last_n. apply Forall_drop. exact Hl. }
      apply Forall_app in F as [FA FB]. apply Forall_app. split; assumption. }
    rewrite (ADC_GetAvgTempC_sum _ 5 Hc); rewrite ?Hb; [| lia | lia |].
    + rewrite take_ge by lia. rewrite Hlast, !Zsum_app.
      rewrite Z.add_comm. reflexivity.
    + rewrite take_ge by lia. exact Hbytes.
Qed.

Lemma is_u8_forallb (l : list Z) :
  forallb (fun x => (0 <=? x) && (x <? 256)) l = true -> Forall is_u8 l.
Proof.
  induction l as [|x l IH]; cbn [forallb]; intros H; constructor.
  - apply andb_true_iff in H as [H _]. apply andb_true_iff in H as [H1 H2].
    apply Z.leb_le in H1. apply Z.ltb_lt in H2.
    unfold is_u8. change (2 ^ 8) with 256. lia.
  - apply IH. apply andb_true_iff in H as [_ H]. exact H.
Qed.

Lemma ADC_GetAvgTempC_rolling_mean_witness :
  ADC_GetAvgTempC (push_all [10; 20; 30] (ADC_InitModule (initial (fun _ => 0)))) = 20 /\
  ADC_GetAvgTempC
    (push_all [1; 2; 3; 4; 5; 6; 7; 8] (ADC_InitModule (initial (fun _ => 0)))) = 6.
Proof.
  pose proof is_u8_forallb as B.
  split.
  - refine (proj1 (proj2 (ADC_GetAvgTempC_rolling_mean (initial (fun _ => 0))
              [10; 20; 30] eq_refl (B [10; 20; 30] eq_refl))) _).
    cbn. lia.
  - refine (proj2 (proj2 (ADC_GetAvgTempC_rolling_mean (initial (fun _ => 0))
              [1; 2; 3; 4; 5; 6; 7; 8] eq_refl
              (B [1; 2; 3; 4; 5; 6; 7; 8] eq_refl))) _).
    cbn. lia.
Defined.

Lemma rolling_inv_init (s : state) : rolling_inv (ADC_InitModule s).
Proof. unfold rolling_inv, ADC_AVG_WINDOW. cbn. lia. Qed.

Lemma rolling_inv_push (v : Z) (s : state) :
  rolling_inv s -> rolling_inv (ADC_PushTemp v s).
Proof.
  unfold rolling_inv, ADC_AVG_WINDOW. intros (Hc & Hi & Hci).
  cbn [ADC_PushTemp s_tempCount s_tempIndex]. unfold u8, u32, ADC_AVG_WINDOW.
  rewrite (wrap_small 32) by (change (2 ^ 32) with 4294967296; lia).
  pose proof (Z.mod_pos_bound (s_tempIndex s + 1) 5 ltac:(lia)) as Hm.
  rewrite (wrap_small 8 ((s_tempIndex s + 1) mod 5))
    by (change (2 ^ 8) with 256; lia).
  destruct (Z.ltb_spec (s_tempCount s) 5) as [L|G].
  - rewrite (wrap_small 8) by (change (2 ^ 8) with 256; lia).
    specialize (Hci L). rewrite Hci in *.
    split; [lia | split; [lia |]].
    intros L'. apply Z.mod_small. lia.
  - split; [lia | split; [lia | intros; lia]].
Qed.

Lemma rolling_inv_push_all (l : list Z) (s : state) :
  rolling_inv s -> rolling_inv (push_all l s).
Proof.
  induction l as [|v l IH] using rev_ind; intros H; [exact H|].
  rewrite push_all_snoc. apply rolling_inv_push, IH, H.
Qed.

(** C10: after initialisation and after every push the count is at most
    5, the write index is below 5, and while the count is below 5 the
    write index equals it and the first [count] slots hold the values
    pushed so far, in order. *)
Theorem rolling_buffer_invariant :
  (forall s : state, rolling_inv (ADC_InitModule s)) /\
  (forall (v : Z) (s : state), rolling_inv s -> rolling_inv (ADC_PushTemp v s)) /\
  (forall (l : list Z) (s : state),
      length (s_tempBuf s) = 5%nat ->
      rolling_inv (push_all l (ADC_InitModule s)) /\
      (s_tempCount (push_all l (ADC_InitModule s)) < ADC_AVG_WINDOW ->
         s_tempCount (push_all l (ADC_InitModule s)) = Z.of_nat (length l) /\
         take (length l) (s_tempBuf (push_all l (ADC_InitModule s))) = l)).
Proof.
  split; [exact rolling_inv_init|]. split; [exact rolling_inv_push|].
  intros l s Hbuf. split; [apply rolling_inv_push_all, rolling_inv_init|].
  intros Hlt. pose proof (ring_inv_push_all s l Hbuf) as R.
  assert (Hl : (length l < 5)%nat).
  { destruct R as (A & B & _ & _ & _ & _ & Hcnt). unfold ADC_AVG_WINDOW in Hlt. lia. }
  destruct (ring_inv_partial _ _ _ Hbuf Hl R) as (Hc & _ & _ & Ht).
  split; assumption.
Qed.

Lemma rolling_buffer_invariant_witness :
  rolling_inv (ADC_PushTemp 7 (ADC_InitModule (initial (fun _ => 0)))) /\
  take 2 (s_tempBuf (push_all [7; 9] (ADC_InitModule (initial (fun _ => 0))))) = [7; 9].
Proof.
  split.
  - apply (proj1 (proj2 rolling_buffer_invariant) 7).
    apply (proj1 rolling_buffer_invariant).
  - refine (proj2 (proj2 (proj2 (proj2 rolling_buffer_invariant)
              [7; 9] (initial (fun _ => 0)) eq_refl) _)).
    vm_compute. reflexivity.
Defined.

End Average.

(** ** The tick interrupt handler *)

Section TickHandler.
Import CInt RMS.

Lemma length_three {A} (l : list A) :
  length l = 3%nat -> exists a b c, l = [a; b; c].
Proof.
  destruct l as [|a [|b [|c [|d l]]]]; simpl; try discriminate.
  intros _. exists a, b, c. reflexivity.
Qed.

Lemma wrap_nonneg w x : 0 <= w -> 0 <= wrap w x.
Proof.
  intros H. unfold wrap. apply Z.mod_pos_bound. apply Z.pow_pos_nonneg; lia.
Qed.

(** The update of one entry by the body of the loop. *)
Lemma isr_step_entry w d :
  (if ThreadRate (set_time (wrap w (SystemTime d + 1)) d)
        <=? SystemTime (set_time (wrap w (SystemTime d + 1)) d)
   then set_time 0 (set_state READY (set_time (wrap w (SystemTime d + 1)) d))
   else set_time (wrap w (SystemTime d + 1)) d) = spec_tick w d.
Proof. unfold spec_tick. cbn. destruct (_ <=? _); reflexivity. Qed.

Lemma isr_step_lookup w tbl i d :
  tbl !! i = Some d -> isr_step w tbl i = <[i := spec_tick w d]> tbl.
Proof.
  intros H. unfold isr_step. rewrite H. rewrite <- isr_step_entry.
  cbv zeta. destruct (_ <=? _); reflexivity.
Qed.

(** The handler treats the three entries in table order, each one as
    [spec_tick] says. *)
Lemma PIT_LED_HANDLER_table w s :
  length (ThreadTable s) = 3%nat ->
  ThreadTable (PIT_LED_HANDLER w s) = map (spec_tick w) (ThreadTable s).
Proof.
  intros H. destruct (length_three _ H) as (a & b & c & E).
  cbn [PIT_LED_HANDLER ThreadTable]. rewrite E. cbn [seq fold_left].
  rewrite (isr_step_lookup w [a; b; c] 0 a eq_refl). cbn [insert list_insert].
  rewrite (isr_step_lookup w (_ :: b :: _) 1 b eq_refl). cbn [insert list_insert].
  rewrite (isr_step_lookup w (_ :: _ :: c :: _) 2 c eq_refl). reflexivity.
Qed.

Lemma spec_tick_below_period w d :
  0 < ThreadRate d -> SystemTime (spec_tick w d) < ThreadRate (spec_tick w d).
Proof.
  intros H. unfold spec_tick.
  destruct (Z.leb_spec (ThreadRate d) (wrap w (SystemTime d + 1))); cbn; lia.
Qed.

Lemma spec_tick_nonneg w d : 0 <= w -> 0 <= SystemTime (spec_tick w d).
Proof.
  intros H. unfold spec_tick. pose proof (wrap_nonneg w (SystemTime d + 1) H).
  destruct (_ <=? _); cbn; lia.
Qed.

(** A descriptor with period 0, which the specification excludes, is
    left with elapsed = period = 0. *)
Lemma spec_tick_period_zero :
  spec_tick 32 (mkThd Thd_idle STANDBY 0 0) = mkThd Thd_idle READY 0 0.
Proof. reflexivity. Qed.

End TickHandler.

(** ** The dispatcher *)

Section Dispatcher.
Import CInt RMS.

Lemma call_frame f s :
  ThreadTable (call f s) = ThreadTable s /\ log (call f s) = log s.
Proof. destruct f; split; reflexivity. Qed.

Lemma store_state_lookup i st s d :
  ThreadTable s !! i = Some d ->
  ThreadTable (store_state i st s) = <[i := set_state st d]> (ThreadTable s) /\
  log (store_state i st s) = log s ++ [EvState i st].
Proof. intros H. unfold store_state. rewrite H. split; reflexivity. Qed.

(** One iteration of the loop of [main] on entry [i]. *)
Lemma dispatch_step_lookup s i d :
  ThreadTable s !! i = Some d ->
  ThreadTable (dispatch_step s i) = <[i := spec_after_visit d]> (ThreadTable s) /\
  log (dispatch_step s i) = log s ++ spec_visit i d.
Proof.
  intros H. unfold dispatch_step. rewrite H.
  unfold spec_after_visit, spec_visit.
  destruct (ThreadState d) eqn:St; cbn [thread_state_eqb].
  - cbn. rewrite list_insert_id by exact H. split; reflexivity.
  - destruct (store_state_lookup i EXECUTE s d H) as [T1 L1].
    set (s1 := store_state i EXECUTE s) in *.
    set (s2 := call (ThreadHandler d) (record (EvCall (ThreadHandler d)) s1)).
    destruct (call_frame (ThreadHandler d) (record (EvCall (ThreadHandler d)) s1))
      as [T2 L2]. fold s2 in T2, L2. cbn [record ThreadTable log] in T2, L2.
    assert (H2 : ThreadTable s2 !! i = Some (set_state EXECUTE d)).
    { rewrite T2, T1. apply list_lookup_insert_eq.
      apply lookup_lt_is_Some. eauto. }
    destruct (store_state_lookup i STANDBY s2 _ H2) as [T3 L3].
    rewrite T3, L3, T2, L2, T1, L1. rewrite list_insert_insert_eq.
    split; [reflexivity|]. rewrite <- !(assoc_L (++)). reflexivity.
  - cbn. rewrite list_insert_id by exact H. split; reflexivity.
Qed.

(** A round visits the three entries in table order. *)
Lemma main_round_spec s :
  length (ThreadTable s) = 3%nat ->
  ThreadTable (main_round s) = map spec_after_visit (ThreadTable s) /\
  log (main_round s) = log s ++ spec_round (ThreadTable s).
Proof.
  intros H. destruct (length_three _ H) as (a & b & c & E).
  unfold main_round. cbn [seq fold_left].
  destruct (dispatch_step_lookup s 0 a) as [T1 L1]; [rewrite E; reflexivity|].
  set (s1 := dispatch_step s 0) in *. rewrite E in T1. cbn in T1.
  destruct (dispatch_step_lookup s1 1 b) as [T2 L2]; [rewrite T1; reflexivity|].
  set (s2 := dispatch_step s1 1) in *. rewrite T1 in T2. cbn in T2.
  destruct (dispatch_step_lookup s2 2 c) as [T3 L3]; [rewrite T2; reflexivity|].
  rewrite T3, L3, T2, L2, L1, E. split; [reflexivity|].
  unfold spec_round. cbn [imap concat]. rewrite app_nil_r, <- !(assoc_L (++)).
  reflexivity.
Qed.

Lemma round_events_spec s :
  length (ThreadTable s) = 3%nat ->
  round_events s = spec_round (ThreadTable s).
Proof.
  intros H. unfold round_events. rewrite (proj2 (main_round_spec s H)).
  apply drop_app_length.
Qed.

End Dispatcher.

(** ** Runs of ticks and rounds *)

Section Runs.
Import CInt RMS.

(** On counters below a period of at most 10 the increment does not
    depend on the width of the field, from 4 bits on. *)
Lemma spec_tick_width w d :
  4 <= w -> 0 <= SystemTime d < ThreadRate d -> ThreadRate d <= 10 ->
  spec_tick w d = spec_tick 4 d.
Proof.
  intros Hw Ht Hr. unfold spec_tick.
  assert (P : 2 ^ 4 <= 2 ^ w) by (apply Z.pow_le_mono_r; lia).
  change (2 ^ 4) with 16 in P.
  rewrite (wrap_small w) by lia.
  rewrite (wrap_small 4) by (change (2 ^ 4) with 16; lia).
  reflexivity.
Qed.

Lemma PIT_LED_HANDLER_width w s :
  4 <= w -> table_inv (ThreadTable s) -> rate_le 10 (ThreadTable s) ->
  PIT_LED_HANDLER w s = PIT_LED_HANDLER 4 s.
Proof.
  intros Hw [Hlen Ht] Hr. unfold PIT_LED_HANDLER. f_equal.
  change (ThreadTable (PIT_LED_HANDLER w s) = ThreadTable (PIT_LED_HANDLER 4 s)).
  rewrite !PIT_LED_HANDLER_table by exact Hlen.
  unfold rate_le in Hr. clear Hlen.
  induction Ht as [|d tbl Hd _ IH]; [reflexivity|].
  apply Forall_cons in Hr as [Hr1 Hr2]. cbn [map]. f_equal.
  - apply spec_tick_width; assumption.
  - apply IH. exact Hr2.
Qed.

Lemma spec_tick_rate w d : ThreadRate (spec_tick w d) = ThreadRate d.
Proof. unfold spec_tick. destruct (_ <=? _); reflexivity. Qed.

Lemma PIT_LED_HANDLER_inv w s :
  0 <= w -> table_inv (ThreadTable s) -> rate_le 10 (ThreadTable s) ->
  table_inv (ThreadTable (PIT_LED_HANDLER w s)) /\
  rate_le 10 (ThreadTable (PIT_LED_HANDLER w s)).
Proof.
  intros Hw [Hlen Ht] Hr. rewrite PIT_LED_HANDLER_table by exact Hlen.
  unfold table_inv, rate_le in *. rewrite length_map.
  split; [split; [exact Hlen|]|].
  - apply Forall_fmap. eapply Forall_impl; [exact Ht|]. intros d Hd. cbv beta in Hd. unfold compose. cbv beta.
    split; [apply spec_tick_nonneg; exact Hw|].
    apply spec_tick_below_period. lia.
  - apply Forall_fmap. eapply Forall_impl; [exact Hr|]. intros d Hd. cbv beta in Hd. unfold compose. cbv beta.
    rewrite spec_tick_rate. exact Hd.
Qed.

Lemma main_round_inv s :
  table_inv (ThreadTable s) -> rate_le 10 (ThreadTable s) ->
  table_inv (ThreadTable (main_round s)) /\ rate_le 10 (ThreadTable (main_round s)).
Proof.
  intros [Hlen Ht] Hr. rewrite (proj1 (main_round_spec s Hlen)).
  unfold table_inv, rate_le in *. rewrite length_map.
  split; [split; [exact Hlen|]|].
  - apply Forall_fmap. eapply Forall_impl; [exact Ht|]. intros d Hd. cbv beta in Hd. unfold compose. cbv beta.
    unfold spec_after_visit. destruct (ThreadState d); exact Hd.
  - apply Forall_fmap. eapply Forall_impl; [exact Hr|]. intros d Hd. cbv beta in Hd. unfold compose. cbv beta.
    unfold spec_after_visit. destruct (ThreadState d); exact Hd.
Qed.

Lemma run_width w (l : list step) : forall s,
  4 <= w -> table_inv (ThreadTable s) -> rate_le 10 (ThreadTable s) ->
  run w l s = run 4 l s.
Proof.
  induction l as [|e l IH]; intros s Hw Ht Hr; [reflexivity|].
  unfold run in *. cbn [fold_left]. destruct e.
  - rewrite (PIT_LED_HANDLER_width w s Hw Ht Hr).
    destruct (PIT_LED_HANDLER_inv 4 s ltac:(lia) Ht Hr) as [Ht' Hr'].
    apply IH; assumption.
  - destruct (main_round_inv s Ht Hr) as [Ht' Hr'].
    apply IH; assumption.
Qed.

Lemma initial_inv : table_inv (ThreadTable initial) /\ rate_le 10 (ThreadTable initial).
Proof.
  split; [split; [reflexivity|]|]; repeat constructor; cbn; lia.
Qed.

(** C5: a round visits the descriptors in table order; a READY one is
    set to EXECUTE, its handler is called, it is set to STANDBY; for any
    other one the idle hook is called.  With the three tasks of periods
    2, 5 and 10 all READY, as they are after the tenth tick, the handlers
    run in the order 2 ms, 5 ms, 10 ms. *)
Theorem main_round_table_order :
  (forall s : state,
      length (ThreadTable s) = 3%nat ->
      log (main_round s) = log s ++ spec_round (ThreadTable s) /\
      ThreadTable (main_round s) = map spec_after_visit (ThreadTable s)) /\
  (forall s : state,
      map ThreadHandler (ThreadTable s) = [Thd_2ms; Thd_5ms; Thd_10ms] ->
      map ThreadState (ThreadTable s) = [READY; READY; READY] ->
      round_events s =
        [EvState 0 EXECUTE; EvCall Thd_2ms; EvState 0 STANDBY;
         EvState 1 EXECUTE; EvCall Thd_5ms; EvState 1 STANDBY;
         EvState 2 EXECUTE; EvCall Thd_10ms; EvState 2 STANDBY] /\
      handlers_run (round_events s) = [Thd_2ms; Thd_5ms; Thd_10ms]) /\
  (forall (tick_bits : Z) (sched : list step),
      4 <= tick_bits ->
      sched = replicate 10 Tick \/
      sched = concat (replicate 9 [Tick; Round]) ++ [Tick] ->
      map ThreadState (ThreadTable (run tick_bits sched initial)) =
        [READY; READY; READY] /\
      handlers_run (round_events (run tick_bits sched initial)) =
        [Thd_2ms; Thd_5ms; Thd_10ms]).
Proof.
  split; [|split].
  - intros s H. destruct (main_round_spec s H). split; assumption.
  - intros s Hh Hs.
    assert (Hlen : length (ThreadTable s) = 3%nat).
    { apply (f_equal length) in Hs. rewrite length_map in Hs. exact Hs. }
    rewrite (round_events_spec s Hlen).
    destruct (length_three _ Hlen) as (a & b & c & E). rewrite E in *.
    destruct a as [ha sa ra ta], b as [hb sb rb tb], c as [hc sc rc tc].
    cbn in Hh, Hs. simplify_eq. split; reflexivity.
  - intros w sched Hw Hsched.
    destruct initial_inv as [Ht Hr].
    rewrite (run_width w sched initial Hw Ht Hr).
    destruct Hsched as [-> | ->]; vm_compute; split; reflexivity.
Qed.

Lemma main_round_table_order_witness :
  map ThreadState (ThreadTable (run 32 (replicate 10 Tick) initial)) =
    [READY; READY; READY] /\
  handlers_run (round_events (run 32 (replicate 10 Tick) initial)) =
    [Thd_2ms; Thd_5ms; Thd_10ms].
Proof.
  refine (proj2 (proj2 main_round_table_order) 32 (replicate 10 Tick) _ _).
  - lia.
  - left. reflexivity.
Defined.

(** The idle hook is what a round calls for a descriptor that is not
    READY: after the second tick only the 2 ms task runs. *)
Lemma round_after_two_ticks :
  round_events (run 32 [Tick; Tick] initial) =
    [EvState 0 EXECUTE; EvCall Thd_2ms; EvState 0 STANDBY;
     EvCall Thd_idle; EvCall Thd_idle].
Proof. vm_compute. reflexivity. Qed.

End Runs.

(** ** The elapsed counters stay below the periods *)

Section ElapsedInvariant.
Import CInt RMS.

Lemma rates_spec_tick w tbl :
  map ThreadRate (map (spec_tick w) tbl) = map ThreadRate tbl.
Proof.
  induction tbl as [|d tbl IH]; [reflexivity|].
  cbn [map]. rewrite spec_tick_rate, IH. reflexivity.
Qed.

Lemma rates_spec_after_visit tbl :
  map ThreadRate (map spec_after_visit tbl) = map ThreadRate tbl.
Proof.
  induction tbl as [|d tbl IH]; [reflexivity|].
  cbn [map]. rewrite IH. unfold spec_after_visit.
  destruct (ThreadState d); reflexivity.
Qed.

(** Neither the handler nor the main loop writes a period. *)
Lemma rates_run w (sched : list step) : forall s,
  map ThreadRate (ThreadTable s) = [2; 5; 10] ->
  map ThreadRate (ThreadTable (run w sched s)) = [2; 5; 10].
Proof.
  induction sched as [|e sched IH]; intros s H; [exact H|].
  assert (Hlen : length (ThreadTable s) = 3%nat).
  { apply (f_equal length) in H. rewrite length_map in H. exact H. }
  unfold run in *. cbn [fold_left]. apply IH. destruct e.
  - rewrite PIT_LED_HANDLER_table by exact Hlen. rewrite rates_spec_tick. exact H.
  - rewrite (proj1 (main_round_spec s Hlen)). rewrite rates_spec_after_visit. exact H.
Qed.

Lemma rates_positive tbl :
  map ThreadRate tbl = [2; 5; 10] -> Forall (fun d => 0 < ThreadRate d) tbl.
Proof.
  intros H. destruct tbl as [|a [|b [|c [|d tbl]]]]; try discriminate.
  cbn in H. injection H as Ha Hb Hc.
  repeat constructor; lia.
Qed.

(** C4: the handler updates every descriptor in table order, adding one
    to the elapsed counter and, exactly when the result reaches the
    period, setting READY and clearing the counter; afterwards every
    elapsed counter is strictly below its period, in every table whose
    periods are positive and so after every execution of the handler in
    a run of the program. *)
Theorem PIT_LED_HANDLER_elapsed_below_period (tick_bits : Z) :
  (forall s : state,
      length (ThreadTable s) = 3%nat ->
      Forall (fun d => 0 < ThreadRate d) (ThreadTable s) ->
      ThreadTable (PIT_LED_HANDLER tick_bits s) =
        map (spec_tick tick_bits) (ThreadTable s) /\
      Forall (fun d => SystemTime d < ThreadRate d)
             (ThreadTable (PIT_LED_HANDLER tick_bits s))) /\
  (forall d : ThdObj,
      (ThreadRate d <= wrap tick_bits (SystemTime d + 1) ->
         ThreadState (spec_tick tick_bits d) = READY /\
         SystemTime (spec_tick tick_bits d) = 0) /\
      (wrap tick_bits (SystemTime d + 1) < ThreadRate d ->
         ThreadState (spec_tick tick_bits d) = ThreadState d /\
         SystemTime (spec_tick tick_bits d) = wrap tick_bits (SystemTime d + 1)) /\
      (0 <= SystemTime d -> SystemTime d + 1 < 2 ^ tick_bits ->
         wrap tick_bits (SystemTime d + 1) = SystemTime d + 1)) /\
  (forall sched : list step,
      Forall (fun d => SystemTime d < ThreadRate d)
             (ThreadTable (PIT_LED_HANDLER tick_bits (run tick_bits sched initial)))).
Proof.
  assert (G : forall s : state,
             length (ThreadTable s) = 3%nat ->
             Forall (fun d => 0 < ThreadRate d) (ThreadTable s) ->
             Forall (fun d => SystemTime d < ThreadRate d)
                    (ThreadTable (PIT_LED_HANDLER tick_bits s))).
  { intros s Hlen Hrate. rewrite (PIT_LED_HANDLER_table _ _ Hlen).
    apply Forall_fmap. eapply Forall_impl; [exact Hrate|].
    intros d Hd. apply spec_tick_below_period. exact Hd. }
  split; [|split].
  - intros s Hlen Hrate. split; [apply PIT_LED_HANDLER_table; exact Hlen|].
    apply G; assumption.
  - intros d. unfold spec_tick. split; [|split].
    + intros H. apply Z.leb_le in H. rewrite H. split; reflexivity.
    + intros H. apply Z.leb_gt in H. rewrite H. split; reflexivity.
    + intros. apply wrap_small. lia.
  - intros sched.
    pose proof (rates_run tick_bits sched initial eq_refl) as R.
    apply G.
    + apply (f_equal length) in R. rewrite length_map in R. exact R.
    + apply rates_positive. exact R.
Qed.

Lemma PIT_LED_HANDLER_elapsed_below_period_witness :
  Forall (fun d => SystemTime d < ThreadRate d)
         (ThreadTable (PIT_LED_HANDLER 32 initial)).
Proof.
  refine (proj2 (proj1 (PIT_LED_HANDLER_elapsed_below_period 32) initial eq_refl _)).
  repeat constructor.
Defined.

End ElapsedInvariant.

(** ** Range and saturation of the mapping *)

Section MappingRange.
Import CInt ADC.

(** X1: the mapping stays within the scale on every 16-bit code, reaches the
    maximum exactly from the full scale 4096 on, and is the plain scaled
    quotient below it. *)
Theorem ADC_CountsToTempC_range_saturation (counts : Z) :
  is_u16 counts ->
  0 <= ADC_CountsToTempC counts <= TEMP_MAX_C /\
  (ADC_CountsToTempC counts = TEMP_MAX_C <-> ADC_FULL_SCALE_COUNTS <= counts) /\
  (counts < ADC_FULL_SCALE_COUNTS ->
     ADC_CountsToTempC counts = counts * 40 / 4096).
Proof.
  intros H. rewrite (ADC_CountsToTempC_unfold counts H).
  unfold TEMP_MAX_C, ADC_FULL_SCALE_COUNTS.
  destruct H as [H0 H1]. change (2 ^ 16) with 65536 in H1.
  split; [|split].
  - Z.to_euclidean_division_equations. lia.
  - Z.to_euclidean_division_equations. lia.
  - intros Hlt. Z.to_euclidean_division_equations. lia.
Qed.

Lemma ADC_CountsToTempC_range_saturation_witness :
  0 <= ADC_CountsToTempC 4096 <= TEMP_MAX_C /\
  (ADC_CountsToTempC 4096 = TEMP_MAX_C <-> ADC_FULL_SCALE_COUNTS <= 4096).
Proof.
  assert (H : is_u16 4096) by (unfold is_u16; change (2 ^ 16) with 65536; lia).
  pose proof (ADC_CountsToTempC_range_saturation 4096 H) as (A & B & _).
  split; assumption.
Defined.

Lemma ADC_CountsToTempC_in_scale (x : Z) : in_scale (ADC_CountsToTempC (u16 x)).
Proof.
  assert (H : is_u16 (u16 x)).
  { unfold is_u16, u16, wrap. apply Z.mod_pos_bound. reflexivity. }
  rewrite (ADC_CountsToTempC_unfold _ H). unfold in_scale, TEMP_MAX_C.
  destruct H as [H0 H1]. change (2 ^ 16) with 65536 in H1.
  Z.to_euclidean_division_equations. lia.
Qed.

End MappingRange.

(** ** The formatter outside two digits *)

Section FormatterEdge.
Import CInt ADC.

(** X2: a value of three digits is not rejected: the units are written as
    usual, and the first character is '0' + value/10, one of the sixteen
    characters after '9'. *)
Theorem ADC_FormatTempToAscii_three_digits (temp_c : Z) (s : state) :
  100 <= temp_c <= 255 ->
  length (gAdcTempAscii s) = 4%nat ->
  gAdcTempAscii (ADC_FormatTempToAscii temp_c s) =
    [ASCII_ZERO + temp_c / 10; ASCII_ZERO + temp_c mod 10; ASCII_DOT_CHAR; ASCII_ZERO]
  /\ 58 <= ASCII_ZERO + temp_c / 10 <= 73
  /\ 48 <= ASCII_ZERO + temp_c mod 10 <= 57.
Proof.
  intros Hv Hlen.
  destruct (length_four _ Hlen) as (a0 & a1 & a2 & a3 & Ha).
  assert (Ht : 10 <= temp_c / 10 <= 25) by (Z.to_euclidean_division_equations; lia).
  assert (Hu : 0 <= temp_c mod 10 <= 9) by (Z.to_euclidean_division_equations; lia).
  rewrite (format_ascii_unfold _ _ _ _ _ _ Ha).
  unfold u8, ASCII_ZERO, ASCII_DOT_CHAR.
  change (Z.of_nat (nat_of_ascii ".")) with 46.
  rewrite (wrap_small 8 (temp_c / 10)) by (change (2 ^ 8) with 256; lia).
  rewrite (wrap_small 8 (temp_c mod 10)) by (change (2 ^ 8) with 256; lia).
  rewrite (wrap_small 8 (48 + temp_c / 10)) by (change (2 ^ 8) with 256; lia).
  rewrite (wrap_small 8 (48 + temp_c mod 10)) by (change (2 ^ 8) with 256; lia).
  split; [reflexivity | lia].
Qed.

Lemma ADC_FormatTempToAscii_three_digits_witness :
  to_chars (gAdcTempAscii (ADC_FormatTempToAscii 255 (initial (fun _ => 0)))) =
    ["I"; "5"; "."; "0"]%char.
Proof.
  assert (H : 100 <= 255 <= 255) by lia.
  pose proof (ADC_FormatTempToAscii_three_digits 255 (initial (fun _ => 0)) H eq_refl)
    as (E & _).
  rewrite E. reflexivity.
Defined.

End FormatterEdge.

(** ** What a due call of the service does *)

Section ServiceEffect.
Import CInt ADC.

Lemma ADC_Service_due_fields tick s :
  due tick s = true ->
  s_lastTempC (ADC_Service tick s) =
    ADC_CountsToTempC (u16 (hw_value s (conversions s))) /\
  s_tempBuf (ADC_Service tick s) =
    <[Z.to_nat (s_tempIndex s) :=
        ADC_CountsToTempC (u16 (hw_value s (conversions s)))]> (s_tempBuf s) /\
  gAdcTempAscii (ADC_Service tick s) = gAdcTempAscii s /\
  s_activeChannel (ADC_Service tick s) = s_activeChannel s /\
  hw_value (ADC_Service tick s) = hw_value s.
Proof. intros H. unfold ADC_Service. rewrite H. repeat split. Qed.

(** X3: when a period has elapsed the service starts one conversion, on the
    active channel, records the tick, and keeps the mapped 16-bit result
    both as the last value and in the slot at the write index; the value
    is within the scale whatever the converter returned. *)
Theorem ADC_Service_due_sample (tick : Z) (s : state) :
  ADC_SAMPLE_PERIOD_MS <= elapsed tick s ->
  hw_log (ADC_Service tick s) = s_activeChannel s :: hw_log s /\
  s_lastKickMs (ADC_Service tick s) = tick /\
  ADC_GetLastTempC (ADC_Service tick s) =
    ADC_CountsToTempC (hw_value s (conversions s) mod 2 ^ 16) /\
  0 <= ADC_GetLastTempC (ADC_Service tick s) <= 40 /\
  s_tempBuf (ADC_Service tick s) =
    <[Z.to_nat (s_tempIndex s) := ADC_GetLastTempC (ADC_Service tick s)]> (s_tempBuf s) /\
  gAdcTempAscii (ADC_Service tick s) = gAdcTempAscii s.
Proof.
  intros He. apply due_true_iff in He.
  destruct (ADC_Service_due _ _ He) as (_ & Hk & Hl).
  destruct (ADC_Service_due_fields _ _ He) as (Ht & Hb & Ha & _).
  unfold ADC_GetLastTempC. rewrite Ht.
  pose proof (ADC_CountsToTempC_in_scale (hw_value s (conversions s))) as R.
  unfold in_scale, TEMP_MAX_C in R.
  split; [exact Hl|]. split; [exact Hk|]. split; [reflexivity|].
  split; [exact R|]. split; [exact Hb | exact Ha].
Qed.

Lemma ADC_Service_due_sample_witness :
  ADC_GetLastTempC (ADC_Service 20 (initial (fun _ => 70000))) = 40.
Proof.
  assert (H : ADC_SAMPLE_PERIOD_MS <= elapsed 20 (initial (fun _ => 70000)))
    by (vm_compute; discriminate).
  pose proof (ADC_Service_due_sample 20 (initial (fun _ => 70000)) H)
    as (_ & _ & E & _).
  rewrite E. reflexivity.
Defined.



(** X5: after a conversion at tick [t] the calls on the next 19 ticks, and a
    repeated call on [t] itself, do nothing, and the call 20 ticks later
    is due, also when the counter wraps in between; a second call with
    the same tick never converts again. *)
Theorem ADC_Service_quiet_window (t : Z) (s : state) :
  (due t s = true ->
     (forall d, 0 <= d < 20 ->
        ADC_Service (u32 (t + d)) (ADC_Service t s) = ADC_Service t s) /\
     due (u32 (t + 20)) (ADC_Service t s) = true) /\
  ADC_Service t (ADC_Service t s) = ADC_Service t s.
Proof.
  assert (Q : due t s = true ->
              forall d, 0 <= d < 2 ^ 32 ->
                        elapsed (u32 (t + d)) (ADC_Service t s) = d).
  { intros H d Hd. destruct (ADC_Service_due _ _ H) as (_ & Hk & _).
    rewrite elapsed_u32. unfold elapsed. rewrite Hk.
    replace (t + d - t) with d by lia. apply wrap_small. exact Hd. }
  split.
  - intros H. split.
    + intros d Hd. apply ADC_Service_not_due, due_false_iff.
      rewrite (Q H d) by (change (2 ^ 32) with 4294967296; lia).
      unfold ADC_SAMPLE_PERIOD_MS. lia.
    + apply due_true_iff.
      rewrite (Q H 20) by (change (2 ^ 32) with 4294967296; lia).
      unfold ADC_SAMPLE_PERIOD_MS. lia.
  - destruct (due t s) eqn:H.
    + apply ADC_Service_not_due, due_false_iff.
      destruct (ADC_Service_due _ _ H) as (_ & Hk & _).
      unfold elapsed. rewrite Hk, Z.sub_diag. reflexivity.
    + rewrite !(ADC_Service_not_due _ _ H). reflexivity.
Qed.

Lemma ADC_Service_quiet_window_witness :
  due (u32 (4294967290 + 20))
      (ADC_Service 4294967290 (initial (fun _ => 0))) = true.
Proof.
  pose proof (ADC_Service_quiet_window 4294967290 (initial (fun _ => 0))) as [H _].
  destruct (H eq_refl) as [_ E]. exact E.
Defined.

(** X6: called on every tick from tick 1 after initialisation, the service
    has converted floor(n/20) times after [n] ticks, for every [n]. *)
Theorem ADC_Service_every_tick_count (s : state) (n : nat) :
  conversions (service_all (consecutive_ticks 1 n) (ADC_InitModule s)) =
  (conversions s + n / 20)%nat.
Proof.
  destruct n as [|n]; [cbn; unfold conversions; lia|].
  pose proof (window_count n (ADC_InitModule s) 1) as W. cbv zeta in W.
  assert (E : elapsed 1 (ADC_InitModule s) = 1) by reflexivity.
  rewrite E in W. specialize (W ltac:(lia)).
  assert (C : cnt (ADC_InitModule s) = cnt s) by reflexivity.
  rewrite C in W. unfold cnt in W.
  set (c' := conversions (service_all (consecutive_ticks 1 (S n)) (ADC_InitModule s))) in *.
  assert (D : Z.of_nat (S n / 20) = Z.of_nat (S n) / 20).
  { rewrite Nat2Z.inj_div. reflexivity. }
  assert (Z.of_nat c' - Z.of_nat (conversions s) = Z.of_nat (S n) / 20).
  { Z.to_euclidean_division_equations. lia. }
  lia.
Qed.

End ServiceEffect.

(** ** The contents of the ring and the value of the average *)

Section RingContents.
Import CInt ADC.

Lemma push_all_buf_length (l : list Z) (s : state) :
  length (s_tempBuf (push_all l s)) = length (s_tempBuf s).
Proof.
  induction l as [|v l IH] using rev_ind; [reflexivity|].
  rewrite push_all_snoc. cbn [ADC_PushTemp s_tempBuf].
  rewrite length_insert. exact IH.
Qed.

(** X7: from the fifth push on the count stays at 5, the write index is the
    number of pushes modulo 5, and the array holds the last five values
    pushed, the oldest one at the write index: a push overwrites the
    oldest sample and no other. *)
Theorem ADC_PushTemp_ring_contents (s : state) (l : list Z) :
  length (s_tempBuf s) = 5%nat ->
  (5 <= length l)%nat ->
  s_tempCount (push_all l (ADC_InitModule s)) = 5 /\
  s_tempIndex (push_all l (ADC_InitModule s)) = Z.of_nat (length l mod 5) /\
  s_tempBuf (push_all l (ADC_InitModule s)) =
    drop (5 - length l mod 5) (last_n 5 l) ++ take (5 - length l mod 5) (last_n 5 l).
Proof.
  intros Hbuf Hl.
  destruct (ring_inv_push_all s l Hbuf) as (A & B & Hlast & Hb & Hidx & Hmod & Hcnt).
  rewrite last_n_app_long in Hlast by exact Hl.
  assert (H5 : length (A ++ B) = 5%nat).
  { rewrite <- Hlast. apply last_n_length. exact Hl. }
  rewrite length_app in H5.
  assert (HB : length B = (length l mod 5)%nat).
  { apply Nat2Z.inj. rewrite Hmod, Nat2Z.inj_mod. reflexivity. }
  split; [lia|]. split; [rewrite Hidx, HB; reflexivity|].
  rewrite Hb, Hlast, <- HB.
  rewrite drop_app_length' by lia. rewrite take_app_length' by lia. reflexivity.
Qed.

Lemma ADC_PushTemp_ring_contents_witness :
  s_tempBuf (push_all [1; 2; 3; 4; 5; 6; 7] (ADC_InitModule (initial (fun _ => 0)))) =
    [6; 7; 3; 4; 5].
Proof.
  pose proof (ADC_PushTemp_ring_contents (initial (fun _ => 0)) [1; 2; 3; 4; 5; 6; 7]
                eq_refl) as H.
  assert (L : (5 <= length [1; 2; 3; 4; 5; 6; 7])%nat) by (cbn; lia).
  destruct (H L) as (_ & _ & E). exact E.
Defined.

Lemma last_n_short {A} (k : nat) (l : list A) :
  (length l <= k)%nat -> last_n k l = l.
Proof.
  intros H. unfold last_n. replace (length l - k)%nat with 0%nat by lia.
  reflexivity.
Qed.

(** The average after the pushes [l], as a function of [l] alone. *)
Lemma ADC_GetAvgTempC_push_all (s : state) (l : list Z) :
  length (s_tempBuf s) = 5%nat -> Forall is_u8 l ->
  ADC_GetAvgTempC (push_all l (ADC_InitModule s)) = rolling_mean l.
Proof.
  intros Hbuf Hl. pose proof (ring_inv_push_all s l Hbuf) as R.
  destruct l as [|x l']; [reflexivity|]. set (l := x :: l') in *.
  assert (Hpos : (0 < length l)%nat) by (cbn; lia).
  unfold rolling_mean. change l with (x :: l') at 1. cbv iota. fold l.
  destruct (le_lt_dec 5 (length l)) as [Hn|Hn].
  - destruct (ring_inv_full _ _ _ Hbuf Hn R) as (Hc & A & B & Hlast & Hb).
    assert (H5 : length (B ++ A) = 5%nat).
    { rewrite length_app, Nat.add_comm, <- length_app, <- Hlast.
      apply last_n_length. exact Hn. }
    assert (Hbytes : Forall is_u8 (B ++ A)).
    { assert (F : Forall is_u8 (A ++ B)).
      { rewrite <- Hlast. unfold last_n. apply Forall_drop. exact Hl. }
      apply Forall_app in F as [FA FB]. apply Forall_app. split; assumption. }
    rewrite (ADC_GetAvgTempC_sum _ 5 Hc); rewrite ?Hb; [| lia | lia |].
    + rewrite take_ge by lia. rewrite Hlast, !Zsum_app.
      rewrite Nat.min_r by lia. rewrite Z.add_comm. reflexivity.
    + rewrite take_ge by lia. exact Hbytes.
  - destruct (ring_inv_partial _ _ _ Hbuf Hn R) as (Hc & _ & Hlen & Ht).
    rewrite (ADC_GetAvgTempC_sum _ (length l) Hc); [| lia | lia |].
    + rewrite Ht, last_n_short by lia. rewrite Nat.min_l by lia. reflexivity.
    + rewrite Ht. exact Hl.
Qed.

Lemma Zsum_between (lo hi : Z) (l : list Z) :
  Forall (fun x => lo <= x <= hi) l ->
  lo * Z.of_nat (length l) <= Zsum l <= hi * Z.of_nat (length l).
Proof.
  unfold Zsum. induction 1 as [|x l Hx _ IH]; cbn [fold_right length]; [lia|].
  rewrite Nat2Z.inj_succ. lia.
Qed.

(** X8: the average lies between the smallest and the largest of the samples
    it covers, the last five pushed or all of them while there are fewer;
    a reading that stays at one value is averaged to that value. *)
Theorem ADC_GetAvgTempC_between (s : state) (l : list Z) (lo hi : Z) :
  length (s_tempBuf s) = 5%nat ->
  Forall is_u8 l -> l <> [] ->
  Forall (fun x => lo <= x <= hi) (last_n 5 l) ->
  lo <= ADC_GetAvgTempC (push_all l (ADC_InitModule s)) <= hi.
Proof.
  intros Hbuf Hl Hne Hw. rewrite (ADC_GetAvgTempC_push_all s l Hbuf Hl).
  destruct l as [|x l']; [congruence|]. set (l := x :: l') in *.
  unfold rolling_mean. change l with (x :: l') at 1. cbv iota. fold l.
  pose proof (Zsum_between lo hi _ Hw) as S.
  assert (Hlen : length (last_n 5 l) = Nat.min (length l) 5).
  { unfold last_n. rewrite length_drop. lia. }
  rewrite Hlen in S.
  assert (Hpos : 0 < Z.of_nat (Nat.min (length l) 5)) by (cbn [length l]; lia).
  split.
  - apply Z.div_le_lower_bound; lia.
  - apply Z.div_le_upper_bound; lia.
Qed.

Lemma ADC_GetAvgTempC_between_witness :
  21 <= ADC_GetAvgTempC
          (push_all [3; 21; 21; 21; 21; 21] (ADC_InitModule (initial (fun _ => 0))))
     <= 21.
Proof.
  apply (ADC_GetAvgTempC_between (initial (fun _ => 0)) [3; 21; 21; 21; 21; 21] 21 21).
  - reflexivity.
  - apply is_u8_forallb. reflexivity.
  - discriminate.
  - cbn. repeat constructor; lia.
Defined.

End RingContents.

(** ** Any sequence of calls of the module *)

Section Client.
Import CInt ADC.

Lemma exec_all_snoc ops op s :
  exec_all (ops ++ [op]) s = exec_op (exec_all ops s) op.
Proof. unfold exec_all. rewrite fold_left_app. reflexivity. Qed.

Lemma in_scale_is_u8 (l : list Z) : Forall in_scale l -> Forall is_u8 l.
Proof.
  intros H. eapply Forall_impl; [exact H|].
  intros x. unfold in_scale, is_u8, TEMP_MAX_C.
  change (2 ^ 8) with 256. lia.
Qed.

(** A push of a temperature of the scale keeps the samples in use within
    the scale. *)
Lemma ADC_PushTemp_in_scale (v : Z) (s : state) :
  length (s_tempBuf s) = 5%nat -> rolling_inv s -> in_scale v ->
  Forall in_scale (take (Z.to_nat (s_tempCount s)) (s_tempBuf s)) ->
  Forall in_scale (take (Z.to_nat (s_tempCount (ADC_PushTemp v s)))
                        (s_tempBuf (ADC_PushTemp v s))).
Proof.
  intros Hlen (Hc & Hi & Hci) Hv Hf. unfold ADC_AVG_WINDOW in *.
  cbn [ADC_PushTemp s_tempCount s_tempBuf]. unfold ADC_AVG_WINDOW, u8.
  destruct (Z.ltb_spec (s_tempCount s) 5) as [L|G].
  - rewrite (Hci L) in *.
    rewrite wrap_small by (change (2 ^ 8) with 256; lia).
    replace (Z.to_nat (s_tempCount s + 1)) with (S (Z.to_nat (s_tempCount s))) by lia.
    rewrite (take_S_r _ _ v) by (apply list_lookup_insert_eq; lia).
    rewrite take_insert_ge by lia.
    apply Forall_app. split; [exact Hf|]. constructor; [exact Hv | constructor].
  - apply Forall_take. apply Forall_insert; [|exact Hv].
    rewrite take_ge in Hf by lia. exact Hf.
Qed.

Lemma sampler_inv_init (s : state) :
  arrays_sized s -> sampler_inv (ADC_InitModule s).
Proof.
  intros Ha. split; [exact Ha|]. split; [apply rolling_inv_init|].
  split; [unfold in_scale, TEMP_MAX_C; cbn; lia|].
  cbn. constructor.
Qed.

(** A due call is the push of the mapped result, after the bookkeeping. *)
Lemma ADC_Service_due_push (tick : Z) (s : state) :
  due tick s = true ->
  ADC_Service tick s =
    ADC_PushTemp (ADC_CountsToTempC (u16 (hw_value s (conversions s))))
      (set_lastTempC (ADC_CountsToTempC (u16 (hw_value s (conversions s))))
         (snd (ADC_ConvertOnce_Polling (set_lastKickMs tick s)))).
Proof. intros D. unfold ADC_Service. rewrite D. reflexivity. Qed.

Lemma sampler_inv_service (tick : Z) (s : state) :
  sampler_inv s -> sampler_inv (ADC_Service tick s).
Proof.
  intros (Ha & Hr & Hl & Hf).
  destruct (due tick s) eqn:D.
  2:{ rewrite (ADC_Service_not_due _ _ D). split; [|split; [|split]]; assumption. }
  pose proof (ADC_CountsToTempC_in_scale (hw_value s (conversions s))) as Hv.
  rewrite (ADC_Service_due_push _ _ D).
  set (v := ADC_CountsToTempC (u16 (hw_value s (conversions s)))) in *.
  set (s3 := set_lastTempC v (snd (ADC_ConvertOnce_Polling (set_lastKickMs tick s)))).
  assert (Hr3 : rolling_inv s3) by exact Hr.
  destruct Ha as [Hb Hq].
  split; [|split; [|split]].
  - split; [|exact Hq]. cbn [ADC_PushTemp s_tempBuf]. rewrite length_insert. exact Hb.
  - apply rolling_inv_push. exact Hr3.
  - exact Hv.
  - apply ADC_PushTemp_in_scale; assumption.
Qed.

Lemma sampler_inv_format (temp_c : Z) (s : state) :
  sampler_inv s -> sampler_inv (ADC_FormatTempToAscii temp_c s).
Proof.
  intros ([Hb Hq] & Hr & Hl & Hf).
  split; [|split; [|split]]; try assumption.
  split; [exact Hb|]. cbn [ADC_FormatTempToAscii set_ascii gAdcTempAscii].
  rewrite !length_insert. exact Hq.
Qed.

Lemma sampler_inv_exec_op (op : api_op) (s : state) :
  sampler_inv s -> sampler_inv (exec_op s op).
Proof.
  intros H. destruct op; cbn [exec_op].
  - apply sampler_inv_init. apply H.
  - exact H.
  - apply sampler_inv_service. exact H.
  - apply sampler_inv_format. exact H.
  - apply sampler_inv_format. exact H.
Qed.

Lemma sampler_inv_exec_all (ops : list api_op) (s : state) :
  sampler_inv s -> sampler_inv (exec_all ops s).
Proof.
  induction ops as [|op ops IH] using rev_ind; intros H; [exact H|].
  rewrite exec_all_snoc. apply sampler_inv_exec_op, IH, H.
Qed.

Lemma sampler_inv_avg (s : state) :
  sampler_inv s -> in_scale (ADC_GetAvgTempC s).
Proof.
  intros ([Hb Hq] & (Hc & Hi & Hci) & Hl & Hf). unfold ADC_AVG_WINDOW in *.
  destruct (Z.eq_dec (s_tempCount s) 0) as [E|NE].
  - unfold ADC_GetAvgTempC. rewrite E. unfold in_scale, TEMP_MAX_C. cbn. lia.
  - rewrite (ADC_GetAvgTempC_sum s (Z.to_nat (s_tempCount s)));
      [| lia | lia | lia | apply in_scale_is_u8; exact Hf].
    pose proof (Zsum_between 0 40 _ Hf) as S.
    rewrite length_take in S.
    rewrite Z2Nat.id by lia. rewrite Nat.min_l, Z2Nat.id in S by lia.
    unfold in_scale, TEMP_MAX_C. split.
    + apply Z.div_pos; lia.
    + apply Z.div_le_upper_bound; lia.
Qed.

(** X9: after initialisation, whatever the client calls and whatever the
    converter returns, the last value and the average are temperatures of
    the scale 0..40, the count is at most 5 and the write index below 5. *)
Theorem ADC_module_values_in_scale (ops : list api_op) (s : state) :
  arrays_sized s ->
  0 <= ADC_GetLastTempC (exec_all ops (ADC_InitModule s)) <= 40 /\
  0 <= ADC_GetAvgTempC (exec_all ops (ADC_InitModule s)) <= 40 /\
  rolling_inv (exec_all ops (ADC_InitModule s)) /\
  arrays_sized (exec_all ops (ADC_InitModule s)).
Proof.
  intros Ha.
  pose proof (sampler_inv_exec_all ops _ (sampler_inv_init s Ha)) as I.
  pose proof (sampler_inv_avg _ I) as Havg.
  destruct I as (Ha' & Hr & Hl & _).
  unfold in_scale, TEMP_MAX_C in *. unfold ADC_GetLastTempC.
  split; [exact Hl|]. split; [exact Havg|]. split; assumption.
Qed.

Lemma ADC_module_values_in_scale_witness :
  0 <= ADC_GetAvgTempC
         (exec_all [OpService 20; OpSetChannel 3; OpService 45; OpFormatAvg]
                   (ADC_InitModule (initial (fun k => 65535 - Z.of_nat k)))) <= 40.
Proof.
  refine (proj1 (proj2 (ADC_module_values_in_scale
            [OpService 20; OpSetChannel 3; OpService 45; OpFormatAvg]
            (initial (fun k => 65535 - Z.of_nat k)) _))).
  split; reflexivity.
Defined.

Lemma exec_op_ascii (op : api_op) (s : state) :
  is_format op = false -> gAdcTempAscii (exec_op s op) = gAdcTempAscii s.
Proof.
  destruct op; cbn [is_format exec_op]; intros H; try discriminate; try reflexivity.
  destruct (due tick_ms s) eqn:D.
  - apply (ADC_Service_due_fields _ _ D).
  - rewrite (ADC_Service_not_due _ _ D). reflexivity.
Qed.

(** X10: the ASCII array changes only in the two format functions: no
    sequence of the other calls (initialisation, channel selection, the
    service) writes it. *)
Theorem gAdcTempAscii_written_by_format_only (ops : list api_op) (s : state) :
  forallb (fun op => negb (is_format op)) ops = true ->
  gAdcTempAscii (exec_all ops s) = gAdcTempAscii s.
Proof.
  induction ops as [|op ops IH] using rev_ind; intros H; [reflexivity|].
  rewrite forallb_app in H. apply andb_true_iff in H as [H1 H2].
  cbn [forallb] in H2. rewrite andb_true_r in H2. apply negb_true_iff in H2.
  rewrite exec_all_snoc, exec_op_ascii by exact H2. apply IH. exact H1.
Qed.

Lemma gAdcTempAscii_written_by_format_only_witness :
  to_chars (gAdcTempAscii
              (exec_all [OpFormat 23; OpService 20; OpInit; OpSetChannel 1; OpService 99]
                        (initial (fun _ => 0)))) = ["2"; "3"; "."; "0"]%char.
Proof.
  change (exec_all [OpFormat 23; OpService 20; OpInit; OpSetChannel 1; OpService 99]
                   (initial (fun _ => 0)))
    with (exec_all [OpService 20; OpInit; OpSetChannel 1; OpService 99]
                   (ADC_FormatTempToAscii 23 (initial (fun _ => 0)))).
  rewrite (gAdcTempAscii_written_by_format_only
             [OpService 20; OpInit; OpSetChannel 1; OpService 99]
             (ADC_FormatTempToAscii 23 (initial (fun _ => 0))) eq_refl).
  reflexivity.
Defined.

(** X11: formatting the average after any sequence of calls writes its two
    decimal digits, the first one at most '4', then '.' and '0', and
    leaves the average and the last value as they were. *)
Theorem ADC_FormatAvgTempToAscii_digits (ops : list api_op) (s : state) :
  arrays_sized s ->
  gAdcTempAscii (ADC_FormatAvgTempToAscii (exec_all ops (ADC_InitModule s))) =
    [ASCII_ZERO + ADC_GetAvgTempC (exec_all ops (ADC_InitModule s)) / 10;
     ASCII_ZERO + ADC_GetAvgTempC (exec_all ops (ADC_InitModule s)) mod 10;
     ASCII_DOT_CHAR; ASCII_ZERO] /\
  0 <= ADC_GetAvgTempC (exec_all ops (ADC_InitModule s)) / 10 <= 4 /\
  0 <= ADC_GetAvgTempC (exec_all ops (ADC_InitModule s)) mod 10 <= 9 /\
  ADC_GetAvgTempC (ADC_FormatAvgTempToAscii (exec_all ops (ADC_InitModule s))) =
    ADC_GetAvgTempC (exec_all ops (ADC_InitModule s)) /\
  ADC_GetLastTempC (ADC_FormatAvgTempToAscii (exec_all ops (ADC_InitModule s))) =
    ADC_GetLastTempC (exec_all ops (ADC_InitModule s)).
Proof.
  intros Ha.
  pose proof (sampler_inv_exec_all ops _ (sampler_inv_init s Ha)) as I.
  pose proof (sampler_inv_avg _ I) as Havg.
  destruct I as ([_ Hq] & _).
  set (s' := exec_all ops (ADC_InitModule s)) in *.
  set (a := ADC_GetAvgTempC s') in *.
  unfold in_scale, TEMP_MAX_C in Havg.
  destruct (length_four _ Hq) as (a0 & a1 & a2 & a3 & E).
  assert (Ht : 0 <= a / 10 <= 4) by (Z.to_euclidean_division_equations; lia).
  assert (Hu : 0 <= a mod 10 <= 9) by (Z.to_euclidean_division_equations; lia).
  split; [|split; [exact Ht | split; [exact Hu | split; reflexivity]]].
  unfold ADC_FormatAvgTempToAscii. fold a.
  rewrite (format_ascii_unfold _ _ _ _ _ _ E).
  unfold u8, ASCII_ZERO, ASCII_DOT_CHAR.
  change (Z.of_nat (nat_of_ascii ".")) with 46.
  rewrite (wrap_small 8 (a / 10)) by (change (2 ^ 8) with 256; lia).
  rewrite (wrap_small 8 (a mod 10)) by (change (2 ^ 8) with 256; lia).
  rewrite (wrap_small 8 (48 + a / 10)) by (change (2 ^ 8) with 256; lia).
  rewrite (wrap_small 8 (48 + a mod 10)) by (change (2 ^ 8) with 256; lia).
  reflexivity.
Qed.

Lemma ADC_FormatAvgTempToAscii_digits_witness :
  to_chars (gAdcTempAscii
              (ADC_FormatAvgTempToAscii
                 (exec_all [OpService 20; OpService 40]
                           (ADC_InitModule (initial (fun k => 2400 * Z.of_nat k + 1000))))))
  = ["2"; "1"; "."; "0"]%char.
Proof.
  assert (A : arrays_sized (initial (fun k => 2400 * Z.of_nat k + 1000)))
    by (split; reflexivity).
  pose proof (ADC_FormatAvgTempToAscii_digits [OpService 20; OpService 40]
                (initial (fun k => 2400 * Z.of_nat k + 1000)) A) as (E & _).
  rewrite E. reflexivity.
Defined.

End Client.

(** ** Periods of the three tasks *)

Section Periods.
Import CInt RMS.

Lemma run_app w (l1 l2 : list step) (s : state) :
  run w (l1 ++ l2) s = run w l2 (run w l1 s).
Proof. unfold run. apply fold_left_app. Qed.

(** The update of a counter that stands at [n mod P]. *)
Lemma spec_tick_mod w h st P n :
  4 <= w -> 0 < P <= 10 -> 0 <= n ->
  spec_tick w (mkThd h st P (n mod P)) =
    mkThd h (if (n + 1) mod P =? 0 then READY else st) P ((n + 1) mod P).
Proof.
  intros Hw HP Hn. unfold spec_tick. cbn [SystemTime ThreadRate ThreadState ThreadHandler].
  pose proof (Z.mod_pos_bound n P ltac:(lia)) as B.
  assert (P16 : 2 ^ 4 <= 2 ^ w) by (apply Z.pow_le_mono_r; lia).
  change (2 ^ 4) with 16 in P16.
  rewrite (wrap_small w) by lia.
  rewrite <- (Zplus_mod_idemp_l n 1 P).
  destruct (Z.leb_spec P (n mod P + 1)) as [L|G].
  - replace (n mod P + 1) with P by lia. rewrite Z_mod_same_full. reflexivity.
  - rewrite (Z.mod_small (n mod P + 1)) by lia.
    destruct (Z.eqb_spec (n mod P + 1) 0); [lia | reflexivity].
Qed.

Lemma map_spec_after_visit_frame tbl :
  map ThreadHandler (map spec_after_visit tbl) = map ThreadHandler tbl /\
  map ThreadRate (map spec_after_visit tbl) = map ThreadRate tbl /\
  map SystemTime (map spec_after_visit tbl) = map SystemTime tbl.
Proof.
  induction tbl as [|d tbl (IH1 & IH2 & IH3)]; [repeat split|].
  cbn [map]. rewrite IH1, IH2, IH3. unfold spec_after_visit.
  destruct (ThreadState d); repeat split.
Qed.

(** The three fields the main loop never writes, for the table of the
    program after [n] ticks. *)
Lemma PIT_LED_HANDLER_times w s n :
  4 <= w -> 0 <= n ->
  map ThreadHandler (ThreadTable s) = [Thd_2ms; Thd_5ms; Thd_10ms] ->
  map ThreadRate (ThreadTable s) = [2; 5; 10] ->
  map SystemTime (ThreadTable s) = [n mod 2; n mod 5; n mod 10] ->
  map ThreadHandler (ThreadTable (PIT_LED_HANDLER w s)) = [Thd_2ms; Thd_5ms; Thd_10ms] /\
  map ThreadRate (ThreadTable (PIT_LED_HANDLER w s)) = [2; 5; 10] /\
  map SystemTime (ThreadTable (PIT_LED_HANDLER w s)) =
    [(n + 1) mod 2; (n + 1) mod 5; (n + 1) mod 10].
Proof.
  intros Hw Hn Hh Hr Ht.
  assert (Hlen : length (ThreadTable s) = 3%nat).
  { apply (f_equal length) in Hr. rewrite length_map in Hr. exact Hr. }
  rewrite (PIT_LED_HANDLER_table w s Hlen).
  destruct (length_three _ Hlen) as (a & b & c & E). rewrite E in *.
  destruct a as [ha sa ra ta], b as [hb sb rb tb], c as [hc sc rc tc].
  cbn in Hh, Hr, Ht. simplify_eq. cbn [map].
  rewrite !spec_tick_mod by lia. repeat split.
Qed.

(** X12: the elapsed counters depend on the number of ticks alone: however
    the rounds of the main loop are placed between the ticks, after [n]
    ticks the counter of the task of period [P] stands at [n mod P], so
    it is cleared, and the task flagged, on every [P]-th tick. *)
Theorem SystemTime_counts_ticks (tick_bits : Z) (sched : list step) :
  4 <= tick_bits ->
  map SystemTime (ThreadTable (run tick_bits sched initial)) =
    [Z.of_nat (count_ticks sched) mod 2;
     Z.of_nat (count_ticks sched) mod 5;
     Z.of_nat (count_ticks sched) mod 10] /\
  map ThreadRate (ThreadTable (run tick_bits sched initial)) = [2; 5; 10] /\
  map ThreadHandler (ThreadTable (run tick_bits sched initial)) =
    [Thd_2ms; Thd_5ms; Thd_10ms].
Proof.
  intros Hw.
  assert (G : forall (l : list step) (s : state) (n : nat),
             map ThreadHandler (ThreadTable s) = [Thd_2ms; Thd_5ms; Thd_10ms] ->
             map ThreadRate (ThreadTable s) = [2; 5; 10] ->
             map SystemTime (ThreadTable s) =
               [Z.of_nat n mod 2; Z.of_nat n mod 5; Z.of_nat n mod 10] ->
             map ThreadHandler (ThreadTable (run tick_bits l s)) =
               [Thd_2ms; Thd_5ms; Thd_10ms] /\
             map ThreadRate (ThreadTable (run tick_bits l s)) = [2; 5; 10] /\
             map SystemTime (ThreadTable (run tick_bits l s)) =
               [Z.of_nat (n + count_ticks l) mod 2;
                Z.of_nat (n + count_ticks l) mod 5;
                Z.of_nat (n + count_ticks l) mod 10]).
  { induction l as [|e l IH]; intros s n Hh Hr Ht.
    - cbn [count_ticks run fold_left]. rewrite Nat.add_0_r. repeat split; assumption.
    - change (run tick_bits (e :: l) s)
        with (run tick_bits l (match e with
                                | Tick => PIT_LED_HANDLER tick_bits s
                                | Round => main_round s
                                end)).
      destruct e; cbn [count_ticks].
      + destruct (PIT_LED_HANDLER_times tick_bits s (Z.of_nat n) Hw ltac:(lia) Hh Hr Ht)
          as (Hh' & Hr' & Ht').
        replace (Z.of_nat n + 1) with (Z.of_nat (S n)) in Ht' by lia.
        replace (n + S (count_ticks l))%nat with (S n + count_ticks l)%nat by lia.
        apply IH; assumption.
      + assert (Hlen : length (ThreadTable s) = 3%nat).
        { apply (f_equal length) in Hr. rewrite length_map in Hr. exact Hr. }
        destruct (map_spec_after_visit_frame (ThreadTable s)) as (F1 & F2 & F3).
        apply IH; rewrite (proj1 (main_round_spec s Hlen)); congruence. }
  destruct (G sched initial 0%nat eq_refl eq_refl eq_refl) as (Hh & Hr & Ht).
  split; [exact Ht|]. split; assumption.
Qed.

Lemma SystemTime_counts_ticks_witness :
  map SystemTime
      (ThreadTable (run 8 [Tick; Tick; Round; Tick; Tick; Tick; Round; Tick; Tick] initial))
  = [1; 2; 7].
Proof.
  assert (H : 4 <= 8) by lia.
  pose proof (SystemTime_counts_ticks 8
                [Tick; Tick; Round; Tick; Tick; Tick; Round; Tick; Tick] H) as (E & _).
  exact E.
Defined.

End Periods.

(** ** How often the handlers run *)

Section Activations.
Import CInt RMS.

(** A round on the table of the program: the READY tasks become STANDBY
    and their handlers add one to their counters. *)
Lemma main_round_three (s : state) (sa sb sc : thread_state) (ta tb tc : Z) :
  ThreadTable s =
    [mkThd Thd_2ms sa 2 ta; mkThd Thd_5ms sb 5 tb; mkThd Thd_10ms sc 10 tc] ->
  ThreadTable (main_round s) =
    [mkThd Thd_2ms (if is_ready sa then STANDBY else sa) 2 ta;
     mkThd Thd_5ms (if is_ready sb then STANDBY else sb) 5 tb;
     mkThd Thd_10ms (if is_ready sc then STANDBY else sc) 10 tc] /\
  counter_2ms (main_round s) =
    (if is_ready sa then u8 (counter_2ms s + 1) else counter_2ms s) /\
  counter_5ms (main_round s) =
    (if is_ready sb then u8 (counter_5ms s + 1) else counter_5ms s) /\
  counter_10ms (main_round s) =
    (if is_ready sc then u8 (counter_10ms s + 1) else counter_10ms s).
Proof.
  intros H. destruct s as [tbl f c2 c5 c10 lg]. cbn in H. subst tbl.
  destruct sa, sb, sc; repeat split.
Qed.

Lemma PIT_LED_HANDLER_counters w s :
  counter_2ms (PIT_LED_HANDLER w s) = counter_2ms s /\
  counter_5ms (PIT_LED_HANDLER w s) = counter_5ms s /\
  counter_10ms (PIT_LED_HANDLER w s) = counter_10ms s /\
  log (PIT_LED_HANDLER w s) = log s.
Proof. repeat split. Qed.

Lemma PIT_LED_HANDLER_three w s sa sb sc n :
  4 <= w -> 0 <= n ->
  ThreadTable s =
    [mkThd Thd_2ms sa 2 (n mod 2); mkThd Thd_5ms sb 5 (n mod 5);
     mkThd Thd_10ms sc 10 (n mod 10)] ->
  ThreadTable (PIT_LED_HANDLER w s) =
    [mkThd Thd_2ms (if (n + 1) mod 2 =? 0 then READY else sa) 2 ((n + 1) mod 2);
     mkThd Thd_5ms (if (n + 1) mod 5 =? 0 then READY else sb) 5 ((n + 1) mod 5);
     mkThd Thd_10ms (if (n + 1) mod 10 =? 0 then READY else sc) 10 ((n + 1) mod 10)].
Proof.
  intros Hw Hn H.
  rewrite (PIT_LED_HANDLER_table w s) by (rewrite H; reflexivity).
  rewrite H. cbn [map]. rewrite !spec_tick_mod by lia. reflexivity.
Qed.

Lemma flag_after_step (P n : Z) :
  P = 2 \/ P = 5 \/ P = 10 -> 0 <= n ->
  (if (n + 1) mod P =? 0 then READY else flag_after P n) = flag_after P (n + 1).
Proof.
  intros HP Hn. unfold flag_after.
  destruct (Z.eqb_spec ((n + 1) mod P) 0) as [E|E];
    destruct (Z.leb_spec P n); destruct (Z.leb_spec P (n + 1));
    try reflexivity; exfalso;
    destruct HP as [-> | [-> | ->]]; Z.to_euclidean_division_equations; lia.
Qed.

Lemma counter_step (P k : Z) :
  P = 2 \/ P = 5 \/ P = 10 -> 0 <= k ->
  (if is_ready (if (k + 1) mod P =? 0 then READY else STANDBY)
   then u8 (u8 (k / P) + 1) else u8 (k / P)) = u8 ((k + 1) / P).
Proof.
  intros HP Hk. unfold u8, wrap.
  destruct (Z.eqb_spec ((k + 1) mod P) 0) as [E|E]; cbn [is_ready thread_state_eqb].
  - rewrite Zplus_mod_idemp_l. f_equal.
    destruct HP as [-> | [-> | ->]]; Z.to_euclidean_division_equations; lia.
  - f_equal.
    destruct HP as [-> | [-> | ->]]; Z.to_euclidean_division_equations; lia.
Qed.

(** The state after [n] ticks during which the main loop did not run. *)
Lemma ticks_without_round w (n : nat) :
  4 <= w ->
  ThreadTable (run w (replicate n Tick) initial) =
    [mkThd Thd_2ms (flag_after 2 (Z.of_nat n)) 2 (Z.of_nat n mod 2);
     mkThd Thd_5ms (flag_after 5 (Z.of_nat n)) 5 (Z.of_nat n mod 5);
     mkThd Thd_10ms (flag_after 10 (Z.of_nat n)) 10 (Z.of_nat n mod 10)] /\
  counter_2ms (run w (replicate n Tick) initial) = 0 /\
  counter_5ms (run w (replicate n Tick) initial) = 0 /\
  counter_10ms (run w (replicate n Tick) initial) = 0.
Proof.
  intros Hw. induction n as [|n (IHt & IH2 & IH5 & IH10)]; [repeat split|].
  rewrite replicate_S_end, run_app.
  set (s := run w (replicate n Tick) initial) in *.
  change (run w [Tick] s) with (PIT_LED_HANDLER w s).
  split; [|exact (conj IH2 (conj IH5 IH10))].
  rewrite (PIT_LED_HANDLER_three w s _ _ _ (Z.of_nat n) Hw ltac:(lia) IHt).
  rewrite !flag_after_step by lia.
  replace (Z.of_nat n + 1) with (Z.of_nat (S n)) by lia. reflexivity.
Qed.

(** X13: READY is a flag, not a count: after [n] ticks during which the main
    loop did not run, the next round runs the handler of each task whose
    period is at most [n] once, however many periods went by, runs no
    other handler, and leaves every task STANDBY. *)
Theorem main_round_after_missed_ticks (tick_bits : Z) (n : nat) :
  4 <= tick_bits ->
  map ThreadState (ThreadTable (run tick_bits (replicate n Tick) initial)) =
    [flag_after 2 (Z.of_nat n); flag_after 5 (Z.of_nat n); flag_after 10 (Z.of_nat n)] /\
  counter_2ms (main_round (run tick_bits (replicate n Tick) initial)) =
    (if 2 <=? Z.of_nat n then 1 else 0) /\
  counter_5ms (main_round (run tick_bits (replicate n Tick) initial)) =
    (if 5 <=? Z.of_nat n then 1 else 0) /\
  counter_10ms (main_round (run tick_bits (replicate n Tick) initial)) =
    (if 10 <=? Z.of_nat n then 1 else 0) /\
  map ThreadState
      (ThreadTable (main_round (run tick_bits (replicate n Tick) initial))) =
    [STANDBY; STANDBY; STANDBY].
Proof.
  intros Hw.
  destruct (ticks_without_round tick_bits n Hw) as (Ht & H2 & H5 & H10).
  set (s := run tick_bits (replicate n Tick) initial) in *.
  destruct (main_round_three s _ _ _ _ _ _ Ht) as (Rt & R2 & R5 & R10).
  rewrite Ht, Rt, R2, R5, R10, H2, H5, H10. cbn [map ThreadState].
  unfold flag_after.
  destruct (2 <=? Z.of_nat n), (5 <=? Z.of_nat n), (10 <=? Z.of_nat n);
    repeat split.
Qed.

Lemma main_round_after_missed_ticks_witness :
  counter_2ms (main_round (run 16 (replicate 7 Tick) initial)) = 1 /\
  counter_5ms (main_round (run 16 (replicate 7 Tick) initial)) = 1 /\
  counter_10ms (main_round (run 16 (replicate 7 Tick) initial)) = 0.
Proof.
  assert (H : 4 <= 16) by lia.
  pose proof (main_round_after_missed_ticks 16 7 H) as (_ & A & B & C & _).
  repeat split; assumption.
Defined.

(** X14: with a round of the main loop after every tick, after [k] ticks the
    handler of the task of period [P] has run floor(k/P) times (its
    counter holds that number modulo 256) and every task is STANDBY. *)
Theorem handlers_run_once_per_period (tick_bits : Z) (k : nat) :
  4 <= tick_bits ->
  counter_2ms (run tick_bits (tick_round k) initial) = u8 (Z.of_nat k / 2) /\
  counter_5ms (run tick_bits (tick_round k) initial) = u8 (Z.of_nat k / 5) /\
  counter_10ms (run tick_bits (tick_round k) initial) = u8 (Z.of_nat k / 10) /\
  map ThreadState (ThreadTable (run tick_bits (tick_round k) initial)) =
    [STANDBY; STANDBY; STANDBY].
Proof.
  intros Hw.
  assert (G : ThreadTable (run tick_bits (tick_round k) initial) =
                [mkThd Thd_2ms STANDBY 2 (Z.of_nat k mod 2);
                 mkThd Thd_5ms STANDBY 5 (Z.of_nat k mod 5);
                 mkThd Thd_10ms STANDBY 10 (Z.of_nat k mod 10)] /\
              counter_2ms (run tick_bits (tick_round k) initial) = u8 (Z.of_nat k / 2) /\
              counter_5ms (run tick_bits (tick_round k) initial) = u8 (Z.of_nat k / 5) /\
              counter_10ms (run tick_bits (tick_round k) initial) = u8 (Z.of_nat k / 10)).
  { induction k as [|k (IHt & IH2 & IH5 & IH10)]; [repeat split|].
    unfold tick_round. rewrite replicate_S_end, concat_app. cbn [concat app].
    fold (tick_round k). rewrite run_app.
    set (s := run tick_bits (tick_round k) initial) in *.
    change (run tick_bits [Tick; Round] s) with (main_round (PIT_LED_HANDLER tick_bits s)).
    pose proof (PIT_LED_HANDLER_three tick_bits s _ _ _ (Z.of_nat k) Hw ltac:(lia) IHt) as Pt.
    destruct (PIT_LED_HANDLER_counters tick_bits s) as (P2 & P5 & P10 & _).
    destruct (main_round_three _ _ _ _ _ _ _ Pt) as (Rt & R2 & R5 & R10).
    rewrite Rt, R2, R5, R10, P2, P5, P10, IH2, IH5, IH10.
    rewrite !counter_step by lia.
    replace (Z.of_nat k + 1) with (Z.of_nat (S k)) by lia.
    split; [|repeat split].
    destruct (Z.of_nat (S k) mod 2 =? 0), (Z.of_nat (S k) mod 5 =? 0),
      (Z.of_nat (S k) mod 10 =? 0); reflexivity. }
  destruct G as (Gt & G2 & G5 & G10).
  rewrite Gt. repeat split; assumption.
Qed.

Lemma handlers_run_once_per_period_witness :
  counter_2ms (run 32 (tick_round 23) initial) = 11 /\
  counter_5ms (run 32 (tick_round 23) initial) = 4 /\
  counter_10ms (run 32 (tick_round 23) initial) = 2.
Proof.
  assert (H : 4 <= 32) by lia.
  pose proof (handlers_run_once_per_period 32 23 H) as (A & B & C & _).
  repeat split; assumption.
Defined.



End Activations.
